(** * sensor-system: the CRUD contract of the machine, sensor and sensor-data routers

    A shallow embedding of the Express routers under [src/routers] (and the
    machine router), of the Mongoose schemas under [src/models], and of the
    parts of express-validator, validator.js and Mongoose that decide what the
    routes answer.  Handlers are functions from the store and the request to
    a response and the next store.

    The libraries are modelled as their current major versions behave
    (express-validator 7, validator.js 13, Mongoose 8 with bson 6): the
    validators by the regular expressions they test, the casts by the
    functions of [mongoose/lib/cast], an identifier as 24 hexadecimal
    characters. *)

From stdpp Require Import gmap strings list fin_maps pretty.
From Stdlib Require Import Ascii String ZArith QArith Qcanon.

Open Scope string_scope.
Open Scope Z_scope.

(** ** JavaScript values of a parsed JSON body

    [express.json()] leaves a plain object in [req.body].  The model covers
    the scalar members: [null], booleans, integer-valued numbers and strings.
    A member that is absent reads as [undefined], here [None]. *)

Inductive JsValue :=
| JNull
| JBool (b : bool)
| JNum (n : Z)
| JStr (s : string).

(** ** Characters and strings *)

Definition is_digit (c : ascii) : bool :=
  let n := N_of_ascii c in ((48 <=? n) && (n <=? 57))%N.

Definition is_hex (c : ascii) : bool :=
  let n := N_of_ascii c in
  (is_digit c || ((65 <=? n) && (n <=? 70)) || ((97 <=? n) && (n <=? 102)))%N.

Definition toLowerCase_char (c : ascii) : ascii :=
  let n := N_of_ascii c in
  if ((65 <=? n) && (n <=? 90))%N then ascii_of_N (n + 32) else c.

Fixpoint every (p : ascii → bool) (s : string) : bool :=
  match s with
  | EmptyString => true
  | String c r => p c && every p r
  end.

Fixpoint toLowerCase (s : string) : string :=
  match s with
  | EmptyString => EmptyString
  | String c r => String (toLowerCase_char c) (toLowerCase r)
  end.

(** [s] matches [[0-9]+]. *)
Definition digits1 (s : string) : bool :=
  match s with
  | EmptyString => false
  | _ => every is_digit s
  end.

(** Splits off the longest prefix of decimal digits. *)
Fixpoint span_digits (s : string) : string * string :=
  match s with
  | String c r =>
      if is_digit c then let '(d, t) := span_digits r in (String c d, t)
      else (EmptyString, s)
  | EmptyString => (EmptyString, EmptyString)
  end.

(** ** validator.js *)

(** [isNumeric(str)] without options tests [/^[+-]?([0-9]*[.])?[0-9]+$/]. *)
Definition numeric_unsigned (s : string) : bool :=
  match span_digits s with
  | (d, EmptyString) => digits1 d
  | (_, String "." r) => digits1 r
  | _ => false
  end.

Definition validator_isNumeric (str : string) : bool :=
  match str with
  | String "+" r | String "-" r => numeric_unsigned r
  | _ => numeric_unsigned str
  end.

(** [isHexadecimal(str)] tests [/^(0x|0h)?[0-9A-F]+$/i]. *)
Definition hex1 (s : string) : bool :=
  match s with
  | EmptyString => false
  | _ => every is_hex s
  end.

Definition validator_isHexadecimal (str : string) : bool :=
  hex1 str ||
  match str with
  | String "0" (String p r) =>
      match p with
      | "x"%char | "X"%char | "h"%char | "H"%char => hex1 r
      | _ => false
      end
  | _ => false
  end.

(** [isMongoId(str)] is [isHexadecimal(str) && str.length === 24]. *)
Definition validator_isMongoId (str : string) : bool :=
  validator_isHexadecimal str && (String.length str =? 24)%nat.

(** ** Number to string

    [String(n)] of an integer-valued number: plain decimal digits below
    [1e21], exponent notation from there on.  (For the large magnitudes the
    digits printed are those of [n] itself; the rounding to a double is not
    part of the model.) *)

Fixpoint dropTrailingZeros (s : string) : string :=
  match s with
  | EmptyString => EmptyString
  | String c r =>
      match dropTrailingZeros r with
      | EmptyString => if Ascii.eqb c "0" then EmptyString else String c EmptyString
      | r' => String c r'
      end
  end.

Definition exponential (n : Z) : string :=
  let ds := pretty (Z.abs n) in
  let sign := if n <? 0 then "-" else "" in
  match ds with
  | EmptyString => ds
  | String d r =>
      let frac := dropTrailingZeros r in
      sign ++ String d (match frac with EmptyString => "" | _ => "." ++ frac end)
           ++ "e+" ++ pretty (Z.of_nat (String.length r))
  end.

Definition Number_toString (n : Z) : string :=
  if Z.abs n <? 10 ^ 21 then pretty n else exponential n.

(** ** express-validator

    A validation chain names a request location and a field and carries the
    validators appended to it.  Standard validators run on the value as
    converted by the library's [toString]; [isString] is a [typeof] test on
    the value itself.  [optional()] skips the chain when the value is
    [undefined]. *)

Inductive Location := in_body | in_params.

Inductive Validator := IsString | IsNumeric | IsMongoId.

Record ValidationChain := {
  location : Location;
  path : string;
  skipUndefined : bool;
  validators : list Validator
}.

Definition body (field : string) : ValidationChain :=
  {| location := in_body; path := field; skipUndefined := false; validators := [] |}.

Definition param (field : string) : ValidationChain :=
  {| location := in_params; path := field; skipUndefined := false; validators := [] |}.

Definition optional (c : ValidationChain) : ValidationChain :=
  {| location := location c; path := path c; skipUndefined := true;
     validators := validators c |}.

Definition withValidator (v : Validator) (c : ValidationChain) : ValidationChain :=
  {| location := location c; path := path c; skipUndefined := skipUndefined c;
     validators := validators c ++ [v] |}.

Definition isString := withValidator IsString.
Definition isNumeric := withValidator IsNumeric.
Definition isMongoId := withValidator IsMongoId.

(** Method chaining, [body "name" .> optional .> isString]. *)
Notation "c .> f" := (f c) (at level 45, left associativity, only parsing).

(** A request as the handlers read it: the path parameters and the body.
    Express binds every parameter the route path names before the handler
    runs, so [req_param] finds its key on every request a route receives. *)
Record Request := {
  params : gmap string string;
  req_body : gmap string JsValue
}.

Definition req_param (req : Request) (name : string) : string :=
  default "" (params req !! name).

Definition selectField (req : Request) (c : ValidationChain) : option JsValue :=
  match location c with
  | in_body => req_body req !! path c
  | in_params => JStr <$> (params req !! path c)
  end.

Definition toString (v : option JsValue) : string :=
  match v with
  | None | Some JNull => ""
  | Some (JBool true) => "true"
  | Some (JBool false) => "false"
  | Some (JNum n) => Number_toString n
  | Some (JStr s) => s
  end.

Definition runValidator (v : Validator) (value : option JsValue) : bool :=
  match v with
  | IsString => match value with Some (JStr _) => true | _ => false end
  | IsNumeric => validator_isNumeric (toString value)
  | IsMongoId => validator_isMongoId (toString value)
  end.

(** One entry of [errors.array()]. *)
Record FieldError := {
  err_location : Location;
  err_path : string;
  err_value : option JsValue;
  err_msg : string
}.

Definition fieldError (c : ValidationChain) (value : option JsValue) : FieldError :=
  {| err_location := location c; err_path := path c; err_value := value;
     err_msg := "Invalid value" |}.

Definition chainErrors (c : ValidationChain) (value : option JsValue) : list FieldError :=
  flat_map (λ v, if runValidator v value then [] else [fieldError c value])
           (validators c).

Definition runChain (req : Request) (c : ValidationChain) : list FieldError :=
  let value := selectField req c in
  match value, skipUndefined c with
  | None, true => []
  | _, _ => chainErrors c value
  end.

(** [validationResult(req).array()] after the chains of a route have run. *)
Definition validationResult (chains : list ValidationChain) (req : Request)
  : list FieldError :=
  flat_map (runChain req) chains.

(** ** The world outside a handler

    What a request observes besides the store: the clock (read as one
    instant for the whole request), the identifier
    the driver generates next, whether the connection is up, and the two
    string conversions of the JavaScript runtime that Mongoose's casts call:
    [Number(s)] ([None] for [NaN]) and the instant Mongoose's date cast
    derives from a string, by [Date.parse] or as milliseconds written out
    ([None] for an invalid date). *)

Record ObjectId := { toHexString : string }.

#[global] Instance ObjectId_eq_dec : EqDecision ObjectId.
Proof. solve_decision. Defined.

Record World := {
  Date_now : Z;
  ObjectId_generate : ObjectId;
  connected : bool;
  StringToNumber : string → option Qc;
  Date_ofString : string → option Z
}.

(** [new ObjectId(s)] on a string: 24 hexadecimal characters or a throw. *)
Definition ObjectId_fromString (s : string) : option ObjectId :=
  if (String.length s =? 24)%nat && every is_hex s
  then Some {| toHexString := toLowerCase s |}
  else None.

(** ** Mongoose: schema types and casting *)

Inductive SchemaType := SchemaString | SchemaNumber | SchemaDate | SchemaObjectId.

Inductive Value :=
| VString (s : string)
| VNumber (x : Qc)
| VDate (t : Z)
| VObjectId (o : ObjectId).

(** The outcome of a cast: a throw, or a value, [None] standing for [null]. *)
Inductive Cast (A : Type) :=
| CastFailed
| Casted (x : option A).
Arguments CastFailed {A}.
Arguments Casted {A} x.

Definition Cast_map {A B} (f : A → B) (c : Cast A) : Cast B :=
  match c with
  | CastFailed => CastFailed
  | Casted x => Casted (f <$> x)
  end.

Definition ofOption {A} (o : option A) : Cast A :=
  match o with
  | Some x => Casted (Some x)
  | None => CastFailed
  end.

Definition castString (v : JsValue) : Cast string :=
  match v with
  | JNull => Casted None
  | JStr s => Casted (Some s)
  | JNum n => Casted (Some (Number_toString n))
  | JBool b => Casted (Some (if b then "true" else "false"))
  end.

Definition castNumber (w : World) (v : JsValue) : Cast Qc :=
  match v with
  | JNull => Casted None
  | JStr "" => Casted None
  | JStr s => ofOption (StringToNumber w s)
  | JBool b => Casted (Some (Q2Qc (inject_Z (if b then 1 else 0))))
  | JNum n => Casted (Some (Q2Qc (inject_Z n)))
  end.

(** A [Date] holds at most 8.64e15 milliseconds either side of the epoch. *)
Definition castDate (w : World) (v : JsValue) : Cast Z :=
  match v with
  | JNull => Casted None
  | JStr "" => Casted None
  | JBool _ => CastFailed
  | JNum n => if Z.abs n <=? 8640000000000000 then Casted (Some n) else CastFailed
  | JStr s => ofOption (Date_ofString w s)
  end.

Definition castObjectId (v : JsValue) : Cast ObjectId :=
  match v with
  | JNull => Casted None
  | _ => ofOption (ObjectId_fromString (toString (Some v)))
  end.

Definition cast (w : World) (t : SchemaType) (v : JsValue) : Cast Value :=
  match t with
  | SchemaString => Cast_map VString (castString v)
  | SchemaNumber => Cast_map VNumber (castNumber w v)
  | SchemaDate => Cast_map VDate (castDate w v)
  | SchemaObjectId => Cast_map VObjectId (castObjectId v)
  end.

(** ** Mongoose: schemas, documents and models

    The options of a schema path as the source writes them.  Mongoose reads
    [required]; it does not know an option called [require], which the
    schemas of this repository set: it is recorded and has no effect.
    [default_Date_now] stands for [default: Date.now]. *)

Record SchemaTypeOptions := {
  type : SchemaType;
  required : bool;
  require : option bool;
  default_Date_now : bool
}.

Definition Schema := list (string * SchemaTypeOptions).

Record Doc := {
  _id : ObjectId;
  fields : gmap string Value
}.

Definition Collection := list Doc.

Definition Doc_set (k : string) (x : Value) (d : Doc) : Doc :=
  {| _id := _id d; fields := <[k := x]> (fields d) |}.

Record Model := {
  modelName : string;
  schema : Schema;
  pre_save : list (World → Doc → Doc)
}.

Inductive Error :=
| CastError
| ValidationError
| MissingIdError
| DuplicateKeyError
| ImmutableFieldError
| NetworkError.

(** A promise that has settled. *)
Inductive Outcome (A : Type) :=
| Resolved (x : A)
| Rejected (e : Error).
Arguments Resolved {A} x.
Arguments Rejected {A} e.

(** *** Constructing a document: [new Model(req.body)]

    Strict mode keeps the members of the payload that are schema paths and
    drops the others.  A cast that fails is remembered and makes [save]
    reject.  An absent path takes its default; [_id] defaults to a generated
    identifier. *)

Record Draft := {
  draft_id : option ObjectId;
  draft_fields : gmap string Value;
  draft_errors : list string
}.

Definition constructPath (w : World) (payload : gmap string JsValue)
    (acc : gmap string Value * list string) (p : string * SchemaTypeOptions)
  : gmap string Value * list string :=
  let '(fs, errs) := acc in
  match payload !! p.1 with
  | None =>
      if default_Date_now p.2 then (<[p.1 := VDate (Date_now w)]> fs, errs) else acc
  | Some v =>
      match cast w (type p.2) v with
      | CastFailed => (fs, (errs ++ [p.1])%list)
      | Casted (Some x) => (<[p.1 := x]> fs, errs)
      | Casted None => acc
      end
  end.

Definition Model_new (M : Model) (w : World) (payload : gmap string JsValue) : Draft :=
  let '(fs, errs) := foldl (constructPath w payload) (∅, []) (schema M) in
  match payload !! "_id" with
  | None =>
      {| draft_id := Some (ObjectId_generate w); draft_fields := fs; draft_errors := errs |}
  | Some v =>
      match castObjectId v with
      | Casted o => {| draft_id := o; draft_fields := fs; draft_errors := errs |}
      | CastFailed => {| draft_id := None; draft_fields := fs; draft_errors := "_id" :: errs |}
      end
  end.

(** *** [doc.save()]

    Validation runs first (pending cast errors, then the [required] paths),
    then the [pre('save')] hooks, then the insert, which the unique index on
    [_id] and the connection can make fail. *)

Definition missingRequired (sch : Schema) (fs : gmap string Value) : list string :=
  flat_map (λ p : string * SchemaTypeOptions,
              if required p.2 then match fs !! p.1 with None => [p.1] | Some _ => [] end
              else [])
           sch.

Definition hasId (i : ObjectId) (c : Collection) : bool :=
  existsb (λ d, bool_decide (_id d = i)) c.

Definition save (M : Model) (w : World) (c : Collection) (d : Draft)
  : Outcome (Doc * Collection) :=
  match (draft_errors d ++ missingRequired (schema M) (draft_fields d))%list with
  | _ :: _ => Rejected ValidationError
  | [] =>
      match draft_id d with
      | None => Rejected MissingIdError
      | Some i =>
          let doc := foldl (λ x hook, hook w x)
                           {| _id := i; fields := draft_fields d |} (pre_save M) in
          if negb (connected w) then Rejected NetworkError
          else if hasId i c then Rejected DuplicateKeyError
          else Resolved (doc, (c ++ [doc])%list)
      end
  end.

(** *** Queries

    A query casts its conditions before it is sent; none of them runs the
    [save] hooks or the schema validators. *)

Definition Model_find (w : World) (c : Collection) : Outcome (list Doc) :=
  if connected w then Resolved c else Rejected NetworkError.

(** [Model.find({ [k]: value })] on a path of type ObjectId. *)
Definition refersTo (k : string) (o : ObjectId) (d : Doc) : bool :=
  match fields d !! k with
  | Some (VObjectId o') => bool_decide (o' = o)
  | _ => false
  end.

Definition Model_find_by (w : World) (c : Collection) (k : string) (value : string)
  : Outcome (list Doc) :=
  match ObjectId_fromString value with
  | None => Rejected CastError
  | Some o =>
      if connected w then Resolved (List.filter (refersTo k o) c)
      else Rejected NetworkError
  end.

Definition lookupId (o : ObjectId) (c : Collection) : option Doc :=
  List.find (λ d, bool_decide (_id d = o)) c.

Definition Model_findById (w : World) (c : Collection) (id : string)
  : Outcome (option Doc) :=
  match ObjectId_fromString id with
  | None => Rejected CastError
  | Some o =>
      if connected w then Resolved (lookupId o c) else Rejected NetworkError
  end.

(** The update document of [findByIdAndUpdate(id, req.body)]: one [$set] per
    member of the payload that is a schema path, cast by the type of the
    path; [null] unsets the value. *)
Definition castUpdatePath (w : World) (payload : gmap string JsValue)
    (acc : option (list (string * option Value))) (p : string * SchemaTypeOptions)
  : option (list (string * option Value)) :=
  match acc, payload !! p.1 with
  | None, _ => None
  | Some sets, None => Some sets
  | Some sets, Some v =>
      match cast w (type p.2) v with
      | CastFailed => None
      | Casted x => Some (sets ++ [(p.1, x)])%list
      end
  end.

Definition castUpdate (M : Model) (w : World) (payload : gmap string JsValue)
  : option (list (string * option Value)) :=
  foldl (castUpdatePath w payload) (Some []) (schema M).

Definition applySet (fs : gmap string Value) (s : string * option Value)
  : gmap string Value :=
  match s.2 with
  | Some x => <[s.1 := x]> fs
  | None => delete s.1 fs
  end.

Fixpoint replaceDoc (d : Doc) (c : Collection) : Collection :=
  match c with
  | [] => []
  | x :: r => if bool_decide (_id x = _id d) then d :: r else x :: replaceDoc d r
  end.

(** The server refuses an update that would change [_id]. *)
Definition updateId (payload : gmap string JsValue) (o : ObjectId) : Cast ObjectId :=
  match payload !! "_id" with
  | Some v => castObjectId v
  | None => Casted (Some o)
  end.

(** [Model.findByIdAndUpdate(id, req.body, { new: true })]. *)
Definition Model_findByIdAndUpdate (M : Model) (w : World) (c : Collection)
    (id : string) (payload : gmap string JsValue)
  : Outcome (option Doc * Collection) :=
  match ObjectId_fromString id with
  | None => Rejected CastError
  | Some o =>
      match castUpdate M w payload, updateId payload o with
      | None, _ | _, CastFailed => Rejected CastError
      | Some sets, Casted newId =>
          if negb (connected w) then Rejected NetworkError
          else match lookupId o c with
               | None => Resolved (None, c)
               | Some d =>
                   if bool_decide (newId = Some o) then
                     let d' := {| _id := _id d; fields := foldl applySet (fields d) sets |} in
                     Resolved (Some d', replaceDoc d' c)
                   else Rejected ImmutableFieldError
               end
      end
  end.

Fixpoint removeDoc (o : ObjectId) (c : Collection) : Collection :=
  match c with
  | [] => []
  | x :: r => if bool_decide (_id x = o) then r else x :: removeDoc o r
  end.

Definition Model_findByIdAndDelete (w : World) (c : Collection) (id : string)
  : Outcome (option Doc * Collection) :=
  match ObjectId_fromString id with
  | None => Rejected CastError
  | Some o =>
      if negb (connected w) then Rejected NetworkError
      else match lookupId o c with
           | None => Resolved (None, c)
           | Some d => Resolved (Some d, removeDoc o c)
           end
  end.

(** ** The models of the repository *)

Definition opts (t : SchemaType) : SchemaTypeOptions :=
  {| type := t; required := false; require := None; default_Date_now := false |}.

Definition with_require (b : bool) (o : SchemaTypeOptions) : SchemaTypeOptions :=
  {| type := type o; required := required o; require := Some b;
     default_Date_now := default_Date_now o |}.

Definition with_required (b : bool) (o : SchemaTypeOptions) : SchemaTypeOptions :=
  {| type := type o; required := b; require := require o;
     default_Date_now := default_Date_now o |}.

Definition with_default_Date_now (o : SchemaTypeOptions) : SchemaTypeOptions :=
  {| type := type o; required := required o; require := require o;
     default_Date_now := true |}.

Definition machineSchema : Schema :=
  [ ("name", opts SchemaString .> with_require true);
    ("createDate", opts SchemaDate .> with_default_Date_now);
    ("updateDate", opts SchemaDate .> with_default_Date_now);
    ("description", opts SchemaString);
    ("companyName", opts SchemaString) ].

(** [machineSchema.pre('save', function (next) { this.updateDate = new Date(); next(); })] *)
Definition machine_pre_save (w : World) (this : Doc) : Doc :=
  Doc_set "updateDate" (VDate (Date_now w)) this.

Definition Machine : Model :=
  {| modelName := "Machine"; schema := machineSchema; pre_save := [machine_pre_save] |}.

Definition sensorSchema : Schema :=
  [ ("name", opts SchemaString .> with_require true);
    ("createDate", opts SchemaDate .> with_default_Date_now);
    ("unitOfMeasurement", opts SchemaString .> with_require true);
    ("minValue", opts SchemaNumber .> with_require false);
    ("maxValue", opts SchemaNumber .> with_require false);
    ("machine", opts SchemaObjectId .> with_require true) ].

Definition Sensor : Model :=
  {| modelName := "Sensor"; schema := sensorSchema; pre_save := [] |}.

(** [src/models/sensorData.js], the schema both sensor-data routers import. *)
Definition sensorDataSchema : Schema :=
  [ ("value", opts SchemaNumber .> with_require true);
    ("rawValue", opts SchemaNumber .> with_require true);
    ("date", opts SchemaDate .> with_default_Date_now);
    ("sensor", opts SchemaObjectId .> with_require true) ].

Definition SensorData : Model :=
  {| modelName := "SensorData"; schema := sensorDataSchema; pre_save := [] |}.

(** The other sensor-data schema kept in the repository, which names the
    reference [sensorId] and spells the option [required]. *)
Definition sensorDataSchema_sensorId : Schema :=
  [ ("value", opts SchemaNumber .> with_required true);
    ("rawValue", opts SchemaNumber .> with_required true);
    ("date", opts SchemaDate .> with_default_Date_now .> with_required true);
    ("sensorId", opts SchemaObjectId .> with_required true) ].

Definition SensorData_sensorId : Model :=
  {| modelName := "SensorData"; schema := sensorDataSchema_sensorId; pre_save := [] |}.

(** ** The store and the responses *)

Record Store := {
  machines : Collection;
  sensors : Collection;
  sensordatas : Collection
}.

Definition set_machines (c : Collection) (st : Store) : Store :=
  {| machines := c; sensors := sensors st; sensordatas := sensordatas st |}.

Definition set_sensors (c : Collection) (st : Store) : Store :=
  {| machines := machines st; sensors := c; sensordatas := sensordatas st |}.

Definition set_sensordatas (c : Collection) (st : Store) : Store :=
  {| machines := machines st; sensors := sensors st; sensordatas := c |}.

(** The text of [{ message: ... }]: a literal of the router, or
    [error.message] of what the store threw. *)
Inductive Message :=
| Text (s : string)
| error_message (error : Error).

Inductive Json :=
| Errors (errors : list FieldError)
| JustMessage (message : Message)
| Document (d : Doc)
| Documents (l : list Doc).

Record Response := {
  status : Z;
  json : Json
}.

Definition res_status_json (code : Z) (j : Json) : Response :=
  {| status := code; json := j |}.

(** [res.json(j)] leaves the status at 200. *)
Definition res_json (j : Json) : Response :=
  {| status := 200; json := j |}.

(** ** The routers

    Each handler takes the world, the store and the request and returns the
    response with the store it leaves.  The calls to the loggers are left
    out. *)

Module machineRouter.

Definition post_chains : list ValidationChain :=
  [ body "name" .> isString;
    body "description" .> isString;
    body "companyName" .> isString ].

Definition post (w : World) (st : Store) (req : Request) : Response * Store :=
  let errors := validationResult post_chains req in
  match errors with
  | _ :: _ => (res_status_json 400 (Errors errors), st)
  | [] =>
      match save Machine w (machines st) (Model_new Machine w (req_body req)) with
      | Resolved (machine, c) => (res_status_json 201 (Document machine), set_machines c st)
      | Rejected error => (res_status_json 400 (JustMessage (error_message error)), st)
      end
  end.

Definition get (w : World) (st : Store) (req : Request) : Response * Store :=
  match Model_find w (machines st) with
  | Resolved machines => (res_status_json 201 (Documents machines), st)
  | Rejected error => (res_status_json 500 (JustMessage (error_message error)), st)
  end.

Definition get_id (w : World) (st : Store) (req : Request) : Response * Store :=
  match Model_findById w (machines st) (req_param req "id") with
  | Resolved None => (res_status_json 404 (JustMessage (Text "Machine entry not found")), st)
  | Resolved (Some machine) => (res_json (Document machine), st)
  | Rejected error => (res_status_json 500 (JustMessage (error_message error)), st)
  end.

(** The chains registered on the route.  They run, and the handler never
    asks for their result. *)
Definition patch_id_chains : list ValidationChain :=
  [ param "id" .> isMongoId;
    body "name" .> optional .> isString;
    body "description" .> optional .> isString;
    body "companyName" .> optional .> isString ].

Definition patch_id (w : World) (st : Store) (req : Request) : Response * Store :=
  match Model_findByIdAndUpdate Machine w (machines st) (req_param req "id") (req_body req) with
  | Resolved (None, _) =>
      (res_status_json 404 (JustMessage (Text "Machine entry not found")), st)
  | Resolved (Some machine, c) => (res_json (Document machine), set_machines c st)
  | Rejected error => (res_status_json 400 (JustMessage (error_message error)), st)
  end.

Definition delete_id (w : World) (st : Store) (req : Request) : Response * Store :=
  match Model_findByIdAndDelete w (machines st) (req_param req "id") with
  | Resolved (None, _) =>
      (res_status_json 404 (JustMessage (Text "Machine entry not found")), st)
  | Resolved (Some _, c) =>
      (res_json (JustMessage (Text "Machine entry deleted successfully")), set_machines c st)
  | Rejected error => (res_status_json 500 (JustMessage (error_message error)), st)
  end.

End machineRouter.

Module sensorRouter.

Definition post_chains : list ValidationChain :=
  [ body "name" .> isString;
    body "unitOfMeasurement" .> isString;
    body "minValue" .> isNumeric;
    body "maxValue" .> isNumeric;
    body "machine" .> isMongoId ].

Definition post (w : World) (st : Store) (req : Request) : Response * Store :=
  let errors := validationResult post_chains req in
  match errors with
  | _ :: _ => (res_status_json 400 (Errors errors), st)
  | [] =>
      match save Sensor w (sensors st) (Model_new Sensor w (req_body req)) with
      | Resolved (sensor, c) => (res_status_json 201 (Document sensor), set_sensors c st)
      | Rejected error => (res_status_json 400 (JustMessage (error_message error)), st)
      end
  end.

Definition get (w : World) (st : Store) (req : Request) : Response * Store :=
  match Model_find w (sensors st) with
  | Resolved sensors => (res_status_json 201 (Documents sensors), st)
  | Rejected error => (res_status_json 500 (JustMessage (error_message error)), st)
  end.

Definition get_id (w : World) (st : Store) (req : Request) : Response * Store :=
  match Model_findById w (sensors st) (req_param req "id") with
  | Resolved None => (res_status_json 404 (JustMessage (Text "Sensor entry not found")), st)
  | Resolved (Some sensor) => (res_json (Document sensor), st)
  | Rejected error => (res_status_json 500 (JustMessage (error_message error)), st)
  end.

Definition patch_id_chains : list ValidationChain :=
  [ body "name" .> optional .> isString;
    body "unitOfMeasurement" .> optional .> isString;
    body "minValue" .> optional .> isNumeric;
    body "maxValue" .> optional .> isNumeric;
    body "machine" .> optional .> isMongoId ].

Definition patch_id (w : World) (st : Store) (req : Request) : Response * Store :=
  match Model_findByIdAndUpdate Sensor w (sensors st) (req_param req "id") (req_body req) with
  | Resolved (None, _) =>
      (res_status_json 404 (JustMessage (Text "Sensor entry not found")), st)
  | Resolved (Some sensor, c) => (res_json (Document sensor), set_sensors c st)
  | Rejected error => (res_status_json 400 (JustMessage (error_message error)), st)
  end.

Definition delete_id (w : World) (st : Store) (req : Request) : Response * Store :=
  match Model_findByIdAndDelete w (sensors st) (req_param req "id") with
  | Resolved (None, _) =>
      (res_status_json 404 (JustMessage (Text "Sensor entry not found")), st)
  | Resolved (Some _, c) =>
      (res_json (JustMessage (Text "Sensor entry deleted successfully")), set_sensors c st)
  | Rejected error => (res_status_json 500 (JustMessage (error_message error)), st)
  end.

(** [GET /:machineId/sensor] *)
Definition get_machineId_sensor (w : World) (st : Store) (req : Request)
  : Response * Store :=
  let machineId := req_param req "machineId" in
  match Model_find_by w (sensors st) "machine" machineId with
  | Resolved sensors => (res_status_json 200 (Documents sensors), st)
  | Rejected error => (res_status_json 500 (JustMessage (error_message error)), st)
  end.

End sensorRouter.

Module sensorDataRouter.

Definition post_chains : list ValidationChain :=
  [ body "value" .> isNumeric;
    body "rawValue" .> isNumeric;
    body "sensor" .> isMongoId ].

Definition post (w : World) (st : Store) (req : Request) : Response * Store :=
  let errors := validationResult post_chains req in
  match errors with
  | _ :: _ => (res_status_json 400 (Errors errors), st)
  | [] =>
      match save SensorData w (sensordatas st) (Model_new SensorData w (req_body req)) with
      | Resolved (sensorData, c) =>
          (res_status_json 201 (Document sensorData), set_sensordatas c st)
      | Rejected error => (res_status_json 400 (JustMessage (error_message error)), st)
      end
  end.

Definition get (w : World) (st : Store) (req : Request) : Response * Store :=
  match Model_find w (sensordatas st) with
  | Resolved sensorData => (res_json (Documents sensorData), st)
  | Rejected error => (res_status_json 500 (JustMessage (error_message error)), st)
  end.

Definition get_id (w : World) (st : Store) (req : Request) : Response * Store :=
  match Model_findById w (sensordatas st) (req_param req "id") with
  | Resolved None =>
      (res_status_json 404 (JustMessage (Text "Sensor data entry not found")), st)
  | Resolved (Some sensorData) => (res_json (Document sensorData), st)
  | Rejected error => (res_status_json 500 (JustMessage (error_message error)), st)
  end.

Definition patch_id_chains : list ValidationChain :=
  [ param "id" .> isMongoId;
    body "value" .> optional .> isNumeric;
    body "rawValue" .> optional .> isNumeric;
    body "sensor" .> optional .> isMongoId ].

Definition patch_id (w : World) (st : Store) (req : Request) : Response * Store :=
  match Model_findByIdAndUpdate SensorData w (sensordatas st)
          (req_param req "id") (req_body req) with
  | Resolved (None, _) =>
      (res_status_json 404 (JustMessage (Text "Sensor data entry not found")), st)
  | Resolved (Some sensorData, c) =>
      (res_json (Document sensorData), set_sensordatas c st)
  | Rejected error => (res_status_json 400 (JustMessage (error_message error)), st)
  end.

Definition delete_id (w : World) (st : Store) (req : Request) : Response * Store :=
  match Model_findByIdAndDelete w (sensordatas st) (req_param req "id") with
  | Resolved (None, _) =>
      (res_status_json 404 (JustMessage (Text "Sensor data entry not found")), st)
  | Resolved (Some _, c) =>
      (res_json (JustMessage (Text "Sensor data entry deleted successfully")),
       set_sensordatas c st)
  | Rejected error => (res_status_json 500 (JustMessage (error_message error)), st)
  end.

End sensorDataRouter.

(** The earlier sensor-data router of the same file: its create route
    validates [sensorId], and the model it builds is the same [SensorData]. *)
Module sensorDataRouter_sensorId.

Definition post_chains : list ValidationChain :=
  [ body "value" .> isNumeric;
    body "rawValue" .> isNumeric;
    body "sensorId" .> isMongoId ].

Definition post (w : World) (st : Store) (req : Request) : Response * Store :=
  let errors := validationResult post_chains req in
  match errors with
  | _ :: _ => (res_status_json 400 (Errors errors), st)
  | [] =>
      match save SensorData w (sensordatas st) (Model_new SensorData w (req_body req)) with
      | Resolved (sensorData, c) =>
          (res_status_json 201 (Document sensorData), set_sensordatas c st)
      | Rejected error => (res_status_json 400 (JustMessage (error_message error)), st)
      end
  end.

Definition get (w : World) (st : Store) (req : Request) : Response * Store :=
  match Model_find w (sensordatas st) with
  | Resolved sensorData => (res_json (Documents sensorData), st)
  | Rejected error => (res_status_json 500 (JustMessage (error_message error)), st)
  end.

(** The remaining routes of the earlier router; its update route registers
    no chain at all. *)
Definition get_id (w : World) (st : Store) (req : Request) : Response * Store :=
  match Model_findById w (sensordatas st) (req_param req "id") with
  | Resolved None =>
      (res_status_json 404 (JustMessage (Text "Sensor data entry not found")), st)
  | Resolved (Some sensorData) => (res_json (Document sensorData), st)
  | Rejected error => (res_status_json 500 (JustMessage (error_message error)), st)
  end.

Definition patch_id (w : World) (st : Store) (req : Request) : Response * Store :=
  match Model_findByIdAndUpdate SensorData w (sensordatas st)
          (req_param req "id") (req_body req) with
  | Resolved (None, _) =>
      (res_status_json 404 (JustMessage (Text "Sensor data entry not found")), st)
  | Resolved (Some sensorData, c) =>
      (res_json (Document sensorData), set_sensordatas c st)
  | Rejected error => (res_status_json 400 (JustMessage (error_message error)), st)
  end.

Definition delete_id (w : World) (st : Store) (req : Request) : Response * Store :=
  match Model_findByIdAndDelete w (sensordatas st) (req_param req "id") with
  | Resolved (None, _) =>
      (res_status_json 404 (JustMessage (Text "Sensor data entry not found")), st)
  | Resolved (Some _, c) =>
      (res_json (JustMessage (Text "Sensor data entry deleted successfully")),
       set_sensordatas c st)
  | Rejected error => (res_status_json 500 (JustMessage (error_message error)), st)
  end.

End sensorDataRouter_sensorId.

(** ** A concrete world and store for the examples

    [Number_decimal] is [Number(s)] on the strings [isNumeric] accepts, and
    [NaN] elsewhere, which is what [Number] gives on every other string the
    examples pass.  No example passes a date as a string. *)

Fixpoint digitsValue (acc : Z) (s : string) : Z :=
  match s with
  | EmptyString => acc
  | String c r => digitsValue (10 * acc + (Z.of_N (N_of_ascii c) - 48)) r
  end.

Definition decimalUnsigned (s : string) : Q :=
  let '(d, t) := span_digits s in
  match t with
  | String "." r => Qmake (digitsValue (digitsValue 0 d) r)
                          (Z.to_pos (10 ^ Z.of_nat (String.length r)))
  | _ => inject_Z (digitsValue 0 d)
  end.

Definition Number_decimal (s : string) : option Qc :=
  if validator_isNumeric s then
    Some (Q2Qc match s with
               | String "-" r => Qopp (decimalUnsigned r)
               | String "+" r => decimalUnsigned r
               | _ => decimalUnsigned s
               end)
  else None.

Definition oid (hex : string) : ObjectId := {| toHexString := hex |}.

Definition world (t : Z) (next : string) : World :=
  {| Date_now := t; ObjectId_generate := oid next; connected := true;
     StringToNumber := Number_decimal; Date_ofString := λ _, None |}.

Definition emptyStore : Store :=
  {| machines := []; sensors := []; sensordatas := [] |}.

Definition request (ps : list (string * string)) (b : list (string * JsValue)) : Request :=
  {| params := list_to_map ps; req_body := list_to_map b |}.

(** One machine with one sensor attached, and an identifier no document has. *)
Definition idM : string := "65f1a0b2c3d4e5f6a7b8c9d0".
Definition idS : string := "65f1a0b2c3d4e5f6a7b8c9d1".
Definition idD : string := "65f1a0b2c3d4e5f6a7b8c9d2".
Definition idX : string := "65f1a0b2c3d4e5f6a7b8c9d9".

Definition lathe : Doc :=
  {| _id := oid idM;
     fields := list_to_map [ ("name", VString "Lathe-1");
                             ("description", VString "CNC lathe");
                             ("companyName", VString "Acme");
                             ("createDate", VDate 100);
                             ("updateDate", VDate 100) ] |}.

Definition temp : Doc :=
  {| _id := oid idS;
     fields := list_to_map [ ("name", VString "Temp");
                             ("unitOfMeasurement", VString "C");
                             ("minValue", VNumber (Q2Qc (inject_Z 0)));
                             ("maxValue", VNumber (Q2Qc (inject_Z 200)));
                             ("machine", VObjectId (oid idM));
                             ("createDate", VDate 110) ] |}.

Definition reading : Doc :=
  {| _id := oid idD;
     fields := list_to_map [ ("value", VNumber (Q2Qc (inject_Z 21)));
                             ("rawValue", VNumber (Q2Qc (inject_Z 2100)));
                             ("date", VDate 120);
                             ("sensor", VObjectId (oid idS)) ] |}.

Definition plant : Store :=
  {| machines := [lathe]; sensors := [temp]; sensordatas := [reading] |}.

(** The machine alone, before any sensor is attached. *)
Definition workshop : Store :=
  {| machines := [lathe]; sensors := []; sensordatas := [] |}.

(** Requests of the examples. *)
Definition sensor_without_bounds : Request :=
  request [] [ ("name", JStr "Temp"); ("unitOfMeasurement", JStr "C");
               ("machine", JStr idM) ].

Definition sensor_with_bounds : Request :=
  request [] [ ("name", JStr "Temp"); ("unitOfMeasurement", JStr "C");
               ("minValue", JNum 0); ("maxValue", JStr "200");
               ("machine", JStr idM) ].





Definition rename_lathe : Request :=
  request [("id", idM)] [ ("name", JStr "Mill-1") ].

Definition describe_lathe : Request :=
  request [("id", idM)] [ ("description", JStr "retrofitted") ].

Definition backdate_lathe : Request :=
  request [("id", idM)] [ ("updateDate", JNum 5) ].




Definition lathe_renamed : Doc :=
  {| _id := oid idM;
     fields := list_to_map [ ("name", VString "Mill-1");
                             ("description", VString "CNC lathe");
                             ("companyName", VString "Acme");
                             ("createDate", VDate 100);
                             ("updateDate", VDate 100) ] |}.

Definition lathe_described : Doc :=
  {| _id := oid idM;
     fields := list_to_map [ ("name", VString "Mill-1");
                             ("description", VString "retrofitted");
                             ("companyName", VString "Acme");
                             ("createDate", VDate 100);
                             ("updateDate", VDate 100) ] |}.

Definition lathe_backdated : Doc :=
  {| _id := oid idM;
     fields := list_to_map [ ("name", VString "Lathe-1");
                             ("description", VString "CNC lathe");
                             ("companyName", VString "Acme");
                             ("createDate", VDate 100);
                             ("updateDate", VDate 5) ] |}.



(** ** The routes by resource, as [routers/index.js] mounts them *)

Inductive Resource := machine | sensor | sensor_data | sensor_data_sensorId.

Definition Create (r : Resource) : World → Store → Request → Response * Store :=
  match r with
  | machine => machineRouter.post
  | sensor => sensorRouter.post
  | sensor_data => sensorDataRouter.post
  | sensor_data_sensorId => sensorDataRouter_sensorId.post
  end.

Definition Create_chains (r : Resource) : list ValidationChain :=
  match r with
  | machine => machineRouter.post_chains
  | sensor => sensorRouter.post_chains
  | sensor_data => sensorDataRouter.post_chains
  | sensor_data_sensorId => sensorDataRouter_sensorId.post_chains
  end.

Definition List_ (r : Resource) : World → Store → Request → Response * Store :=
  match r with
  | machine => machineRouter.get
  | sensor => sensorRouter.get
  | sensor_data => sensorDataRouter.get
  | sensor_data_sensorId => sensorDataRouter_sensorId.get
  end.




Definition reading_by_sensor : Request :=
  request [] [ ("value", JNum 21); ("rawValue", JStr "2100.5");
               ("sensor", JStr idS) ].

Definition machine_full : Request :=
  request [] [ ("name", JStr "Lathe-1"); ("description", JStr "CNC lathe");
               ("companyName", JStr "Acme") ].


(** ** The five operations of a resource

    The routers are three copies of one shape.  The definitions below name
    the parts that differ (the model, the collection, the literal texts, the
    status of the list route) and pick the handler of a resource by
    operation. *)

Definition model_of (r : Resource) : Model :=
  match r with
  | machine => Machine
  | sensor => Sensor
  | sensor_data | sensor_data_sensorId => SensorData
  end.

Definition collection (r : Resource) (st : Store) : Collection :=
  match r with
  | machine => machines st
  | sensor => sensors st
  | sensor_data | sensor_data_sensorId => sensordatas st
  end.

Definition set_collection (r : Resource) (c : Collection) (st : Store) : Store :=
  match r with
  | machine => set_machines c st
  | sensor => set_sensors c st
  | sensor_data | sensor_data_sensorId => set_sensordatas c st
  end.

Definition notFoundText (r : Resource) : string :=
  match r with
  | machine => "Machine entry not found"
  | sensor => "Sensor entry not found"
  | sensor_data | sensor_data_sensorId => "Sensor data entry not found"
  end.

Definition deletedText (r : Resource) : string :=
  match r with
  | machine => "Machine entry deleted successfully"
  | sensor => "Sensor entry deleted successfully"
  | sensor_data | sensor_data_sensorId => "Sensor data entry deleted successfully"
  end.

Definition listStatus (r : Resource) : Z :=
  match r with
  | machine | sensor => 201
  | sensor_data | sensor_data_sensorId => 200
  end.

Definition GetById (r : Resource) : World → Store → Request → Response * Store :=
  match r with
  | machine => machineRouter.get_id
  | sensor => sensorRouter.get_id
  | sensor_data => sensorDataRouter.get_id
  | sensor_data_sensorId => sensorDataRouter_sensorId.get_id
  end.

Definition UpdateById (r : Resource) : World → Store → Request → Response * Store :=
  match r with
  | machine => machineRouter.patch_id
  | sensor => sensorRouter.patch_id
  | sensor_data => sensorDataRouter.patch_id
  | sensor_data_sensorId => sensorDataRouter_sensorId.patch_id
  end.

Definition DeleteById (r : Resource) : World → Store → Request → Response * Store :=
  match r with
  | machine => machineRouter.delete_id
  | sensor => sensorRouter.delete_id
  | sensor_data => sensorDataRouter.delete_id
  | sensor_data_sensorId => sensorDataRouter_sensorId.delete_id
  end.

Inductive Operation := OpCreate | OpList | OpGetById | OpUpdateById | OpDeleteById.

Definition handler (r : Resource) (op : Operation)
  : World → Store → Request → Response * Store :=
  match op with
  | OpCreate => Create r
  | OpList => List_ r
  | OpGetById => GetById r
  | OpUpdateById => UpdateById r
  | OpDeleteById => DeleteById r
  end.

(** The names of the paths of a schema. *)
Definition pathNames (sch : Schema) : list string := map fst sch.

(** No two documents of a collection share an identifier, as the unique
    index on [_id] has it. *)
Definition uniqueIds (c : Collection) : Prop := NoDup (map _id c).

Definition storeUniqueIds (st : Store) : Prop :=
  uniqueIds (machines st) ∧ uniqueIds (sensors st) ∧ uniqueIds (sensordatas st).

(** An identifier whose hexadecimal text reads back as itself. *)
Definition canonical (o : ObjectId) : Prop :=
  ObjectId_fromString (toHexString o) = Some o.

(** The request [GET|PATCH|DELETE /:id] for the identifier [o]. *)
Definition request_id (o : ObjectId) (b : list (string * JsValue)) : Request :=
  request [("id", toHexString o)] b.

(** * Properties *)

(** ** Validation *)






Lemma List_frame r w st st' req :
  machines st' = machines st → sensors st' = sensors st →
  sensordatas st' = sensordatas st →
  (List_ r w st' req).1 = (List_ r w st req).1.
Proof.
  intros Hm Hs Hd.
  destruct r; simpl;
    unfold machineRouter.get, sensorRouter.get, sensorDataRouter.get,
      sensorDataRouter_sensorId.get; rewrite ?Hm, ?Hs, ?Hd;
    by destruct (Model_find _ _).
Qed.



(** ** The sensors of a machine *)

Lemma get_machineId_sensor_valid w st req o :
  connected w = true →
  ObjectId_fromString (req_param req "machineId") = Some o →
  sensorRouter.get_machineId_sensor w st req
  = (res_status_json 200 (Documents (List.filter (refersTo "machine" o) (sensors st))), st).
Proof.
  intros Hup Hid. unfold sensorRouter.get_machineId_sensor, Model_find_by.
  by rewrite Hid, Hup.
Qed.

Lemma refersTo_true k o d :
  refersTo k o d = true ↔ fields d !! k = Some (VObjectId o).
Proof.
  unfold refersTo. destruct (fields d !! k) as [[| | |o']|]; try by split.
  rewrite bool_decide_eq_true. split; congruence.
Qed.

Lemma filter_none {A} (f : A → bool) (l : list A) :
  (∀ x, x ∈ l → f x = false) → List.filter f l = [].
Proof.
  induction l as [|x l IH]; [done|]. intros H. simpl.
  rewrite (H x) by apply list_elem_of_here.
  apply IH. intros y Hy. apply H. by apply list_elem_of_further.
Qed.

(** C8. For a machine identifier of the store's format and a reachable
    store, [GET /sensor/:machineId/sensor] answers 200 with exactly the
    sensors whose [machine] reference is that identifier.  The machines
    collection is not consulted: the answer is the same whatever machines
    exist, and it is the empty sequence when no sensor refers to the
    identifier. *)
Theorem ListByMachine_filters_by_reference (w : World) (st : Store) (req : Request)
    (o : ObjectId) :
  connected w = true →
  ObjectId_fromString (req_param req "machineId") = Some o →
  sensorRouter.get_machineId_sensor w st req
  = (res_status_json 200 (Documents (List.filter (refersTo "machine" o) (sensors st))), st)
  ∧ (∀ d, d ∈ List.filter (refersTo "machine" o) (sensors st)
           ↔ d ∈ sensors st ∧ fields d !! "machine" = Some (VObjectId o))
  ∧ (∀ ms, (sensorRouter.get_machineId_sensor w (set_machines ms st) req).1
           = (sensorRouter.get_machineId_sensor w st req).1)
  ∧ ((∀ d, d ∈ sensors st → fields d !! "machine" ≠ Some (VObjectId o)) →
     (sensorRouter.get_machineId_sensor w st req).1 = res_status_json 200 (Documents [])).
Proof.
  intros Hup Hid. split; [by apply get_machineId_sensor_valid|].
  split.
  { intros d. rewrite list_elem_of_In, filter_In, <- list_elem_of_In.
    by rewrite refersTo_true. }
  split.
  { intros ms. by rewrite !(get_machineId_sensor_valid _ _ _ o). }
  intros Hnone. rewrite (get_machineId_sensor_valid _ _ _ o) by done. simpl.
  rewrite filter_none; [done|].
  intros d Hd. specialize (Hnone d Hd).
  apply not_true_is_false. by rewrite refersTo_true.
Qed.

Lemma ListByMachine_filters_by_reference_witness :
  sensorRouter.get_machineId_sensor (world 200 idX) plant (request [("machineId", idM)] [])
  = (res_status_json 200 (Documents [temp]), plant)
  ∧ (sensorRouter.get_machineId_sensor (world 200 idX) plant
       (request [("machineId", idX)] [])).1
    = res_status_json 200 (Documents []).
Proof.
  split.
  - by apply (ListByMachine_filters_by_reference (world 200 idX) plant
                (request [("machineId", idM)] []) (oid idM)).
  - apply (ListByMachine_filters_by_reference (world 200 idX) plant
             (request [("machineId", idX)] []) (oid idX)); [done..|].
    intros d ->%list_elem_of_singleton. by vm_compute.
Defined.

(** ** Deleting a machine *)

Lemma removeDoc_split o c d :
  lookupId o c = Some d →
  ∃ l1 l2, c = (l1 ++ d :: l2)%list ∧ _id d = o
           ∧ (∀ x, x ∈ l1 → _id x ≠ o) ∧ removeDoc o c = (l1 ++ l2)%list.
Proof.
  unfold lookupId. induction c as [|x c IH]; [done|]. simpl.
  case_bool_decide as Hx.
  - intros [= ->]. exists [], c. repeat split; [done|]. by intros ? ?%elem_of_nil.
  - intros (l1 & l2 & -> & Hd & Hl1 & Hrem)%IH.
    exists (x :: l1), l2. rewrite Hrem. repeat split; [done|].
    intros y [->|Hy]%elem_of_cons; [done|by apply Hl1].
Qed.

(** C9. A [DELETE /machine/:id] that answers 200 has removed one document,
    the machine with that identifier, from the machines collection and has
    left the sensors and the sensor data as they were: the sensors route of
    the deleted machine answers afterwards what it answered before, 200 with
    every sensor that refers to the deleted identifier. *)
Theorem Machine_delete_no_cascade (w : World) (st st' : Store) (req : Request)
    (r : Response) :
  machineRouter.delete_id w st req = (r, st') →
  status r = 200 →
  ∃ o, ObjectId_fromString (req_param req "id") = Some o
    ∧ sensors st' = sensors st
    ∧ sensordatas st' = sensordatas st
    ∧ (∃ l1 d l2, machines st = (l1 ++ d :: l2)%list ∧ _id d = o
                  ∧ (∀ x, x ∈ l1 → _id x ≠ o) ∧ machines st' = (l1 ++ l2)%list)
    ∧ ∀ req', req_param req' "machineId" = req_param req "id" →
        sensorRouter.get_machineId_sensor w st' req'
        = (res_status_json 200
             (Documents (List.filter (refersTo "machine" o) (sensors st))), st')
        ∧ (sensorRouter.get_machineId_sensor w st' req').1
          = (sensorRouter.get_machineId_sensor w st req').1.
Proof.
  unfold machineRouter.delete_id, Model_findByIdAndDelete.
  destruct (ObjectId_fromString (req_param req "id")) as [o|] eqn:Hid;
    [|by intros [= <- <-]].
  destruct (connected w) eqn:Hup; simpl; [|by intros [= <- <-]].
  destruct (lookupId o (machines st)) as [d|] eqn:Hfind; [|by intros [= <- <-]].
  intros [= <- <-] _. exists o. repeat split.
  - destruct (removeDoc_split _ _ _ Hfind) as (l1 & l2 & ? & ? & ? & ?).
    by exists l1, d, l2.
  - rewrite <- H in Hid. by rewrite (get_machineId_sensor_valid _ _ _ o).
  - rewrite <- H in Hid. by rewrite !(get_machineId_sensor_valid _ _ _ o).
Qed.

Lemma Machine_delete_no_cascade_witness :
  machineRouter.delete_id (world 300 idX) plant (request [("id", idM)] [])
  = (res_json (JustMessage (Text "Machine entry deleted successfully")),
     set_machines [] plant)
  ∧ sensors (set_machines [] plant) = [temp]
  ∧ sensorRouter.get_machineId_sensor (world 300 idX) (set_machines [] plant)
      (request [("machineId", idM)] [])
    = (res_status_json 200 (Documents [temp]), set_machines [] plant).
Proof.
  assert (machineRouter.delete_id (world 300 idX) plant (request [("id", idM)] [])
          = (res_json (JustMessage (Text "Machine entry deleted successfully")),
             set_machines [] plant)) as H.
  { by vm_compute. }
  split; [exact H|].
  destruct (Machine_delete_no_cascade (world 300 idX) plant (set_machines [] plant)
              (request [("id", idM)] []) _ H eq_refl)
    as (o & Ho & Hs & _ & _ & Hlist).
  split; [exact Hs|].
  destruct (Hlist (request [("machineId", idM)] []) eq_refl) as [-> _].
  injection Ho as <-. by vm_compute.
Defined.

(** ** Creating documents *)

Section Accepting.

Context (w : World).

(** [Number(s)] is a number on every string that [isNumeric] accepts. *)
Hypothesis Number_of_numeric :
  ∀ s, validator_isNumeric s = true → StringToNumber w s ≠ None.

Lemma isNumeric_castNumber (value : option JsValue) :
  runValidator IsNumeric value = true →
  ∃ v x, value = Some v ∧ castNumber w v = Casted (Some x).
Proof using Number_of_numeric.
  destruct value as [[|[]|n|s]|]; try done.
  - intros _. by eexists _, _.
  - simpl. intros Hs. destruct s as [|c s]; [done|].
    specialize (Number_of_numeric _ Hs).
    destruct (StringToNumber w (String c s)) as [x|] eqn:Hx; [|done].
    exists (JStr (String c s)), x. simpl. by rewrite Hx.
Qed.

End Accepting.



Lemma Number_decimal_of_numeric s :
  validator_isNumeric s = true → Number_decimal s ≠ None.
Proof. unfold Number_decimal. by intros ->. Qed.


(** The option [required], where a schema spells it so, does make [save]
    refuse a document: under the schema that requires [sensorId], the payload
    of the current create route, which carries [sensor], is not persisted. *)
Lemma required_sensorId_refuses_sensor_payload :
  save SensorData_sensorId (world 130 idX) [reading]
       (Model_new SensorData_sensorId (world 130 idX)
          (list_to_map [ ("value", JNum 21); ("rawValue", JNum 2100);
                         ("sensor", JStr idS) ]))
  = Rejected ValidationError.
Proof. by vm_compute. Qed.


Lemma ObjectId_castObjectId (value : option JsValue) :
  is_Some (ObjectId_fromString (toString value)) →
  ∃ v o, value = Some v ∧ castObjectId v = Casted (Some o).
Proof.
  intros [o Ho]. destruct value as [v|]; [|done].
  exists v, o. split; [done|]. unfold castObjectId.
  destruct v; [done|by rewrite Ho..].
Qed.


(** Against C6 as stated: a sensor payload with a valid name, unit and
    machine reference and without the two bounds is not accepted: the answer is 400, not 201, and
    no sensor is persisted. *)
Lemma Sensor_create_without_bounds_is_400 :
  validationResult
    [ body "name" .> isString; body "unitOfMeasurement" .> isString;
      body "machine" .> isMongoId ] sensor_without_bounds = []
  ∧ req_body sensor_without_bounds !! "minValue" = None
  ∧ req_body sensor_without_bounds !! "maxValue" = None
  ∧ sensorRouter.post (world 110 idS) workshop sensor_without_bounds
    = (res_status_json 400
         (Errors [ fieldError (body "minValue" .> isNumeric) None;
                   fieldError (body "maxValue" .> isNumeric) None ]),
       workshop)
  ∧ status (sensorRouter.post (world 110 idS) workshop sensor_without_bounds).1 ≠ 201.
Proof. by vm_compute. Qed.


(** ** Reading one document *)




(** The 404 of [GET /machine/:id] and [GET /sensor/:id] is the answer to a
    well-formed identifier that no document has, asked of a reachable store. *)
Lemma GetById_404_iff (w : World) (st : Store) (req : Request) :
  (status (machineRouter.get_id w st req).1 = 404
   ↔ connected w = true
     ∧ ∃ o, ObjectId_fromString (req_param req "id") = Some o
            ∧ lookupId o (machines st) = None)
  ∧ (status (sensorRouter.get_id w st req).1 = 404
     ↔ connected w = true
       ∧ ∃ o, ObjectId_fromString (req_param req "id") = Some o
              ∧ lookupId o (sensors st) = None).
Proof.
  unfold machineRouter.get_id, sensorRouter.get_id, Model_findById.
  destruct (ObjectId_fromString (req_param req "id")) as [o|];
    [|split; (split; [done|by intros (_ & ? & ? & _)])].
  destruct (connected w);
    [|split; (split; [done|by intros (? & _)])].
  split.
  - destruct (lookupId o (machines st)) eqn:E; simpl.
    + split; [done|]. intros (_ & o' & [= <-] & ?). congruence.
    + split; [|done]. intros _. split; [done|]. by exists o.
  - destruct (lookupId o (sensors st)) eqn:E; simpl.
    + split; [done|]. intros (_ & o' & [= <-] & ?). congruence.
    + split; [|done]. intros _. split; [done|]. by exists o.
Qed.

(** ** Creating a machine *)



(** ** Listing *)

(** C5, as the routes behave.  With the store reachable, [GET /machine] and
    [GET /sensor] answer with all the documents of the collection under
    status 201; [GET /sensor-data], the same handler otherwise, answers them
    under 200. *)
Theorem List_answers_201 (w : World) (st : Store) (req : Request) :
  connected w = true →
  machineRouter.get w st req = (res_status_json 201 (Documents (machines st)), st)
  ∧ sensorRouter.get w st req = (res_status_json 201 (Documents (sensors st)), st)
  ∧ sensorDataRouter.get w st req
    = (res_status_json 200 (Documents (sensordatas st)), st).
Proof.
  intros Hup.
  unfold machineRouter.get, sensorRouter.get, sensorDataRouter.get, Model_find.
  by rewrite Hup.
Qed.

Lemma List_answers_201_witness :
  machineRouter.get (world 200 idX) plant (request [] [])
  = (res_status_json 201 (Documents [lathe]), plant)
  ∧ sensorRouter.get (world 200 idX) plant (request [] [])
    = (res_status_json 201 (Documents [temp]), plant)
  ∧ sensorDataRouter.get (world 200 idX) plant (request [] [])
    = (res_status_json 200 (Documents [reading]), plant).
Proof.
  apply (List_answers_201 (world 200 idX) plant (request [] [])).
  reflexivity.
Defined.

(** ** Updating *)

Lemma castUpdatePath_foldl w payload sch acc sets :
  foldl (castUpdatePath w payload) acc sch = Some sets →
  ∃ sets0, acc = Some sets0
           ∧ ∀ k x, (k, x) ∈ sets → (k, x) ∈ sets0 ∨ is_Some (payload !! k).
Proof.
  revert acc. induction sch as [|p sch IH]; intros acc H; simpl in H.
  { exists sets. split; [done|]. by left. }
  apply IH in H as (s1 & Hs1 & Hin).
  unfold castUpdatePath in Hs1. destruct acc as [s0|]; [|done].
  exists s0. split; [done|].
  destruct (payload !! p.1) as [v|] eqn:E; [|by injection Hs1 as <-].
  destruct (cast w (type p.2) v) as [|x0]; [done|]. injection Hs1 as <-.
  intros k x Hk. destruct (Hin k x Hk) as [Hk'|]; [|by right].
  apply elem_of_app in Hk' as [?|Hk'%list_elem_of_singleton]; [by left|].
  injection Hk' as -> ->. right. by rewrite E.
Qed.

Lemma castUpdate_keys M w payload sets k x :
  castUpdate M w payload = Some sets → (k, x) ∈ sets → is_Some (payload !! k).
Proof.
  intros (s0 & [= <-] & Hin)%castUpdatePath_foldl Hk.
  destruct (Hin k x Hk) as [[]%elem_of_nil|]; done.
Qed.

Lemma foldl_applySet_other sets (fs : gmap string Value) k :
  (∀ x, (k, x) ∉ sets) → foldl applySet fs sets !! k = fs !! k.
Proof.
  revert fs. induction sets as [|[k' x'] sets IH]; intros fs Hk; [done|].
  simpl. rewrite IH.
  - assert (k' ≠ k) as Hne.
    { intros ->. apply (Hk x'), list_elem_of_here. }
    unfold applySet. simpl.
    destruct x'; [by apply lookup_insert_ne|by apply lookup_delete_ne].
  - intros x Hx. apply (Hk x). by apply list_elem_of_further.
Qed.

Lemma lookupId_elem o c d : lookupId o c = Some d → d ∈ c ∧ _id d = o.
Proof.
  unfold lookupId. intros [Hin Hid%bool_decide_eq_true]%find_some.
  split; [by apply list_elem_of_In|done].
Qed.

(** A successful [PATCH /machine/:id] whose payload has no [updateDate]
    answers with the [updateDate] the stored machine already had: the update
    is a query, and the [pre('save')] hook of the model does not run. *)
Lemma Machine_update_keeps_updateDate (w : World) (st st' : Store) (req : Request)
    (d : Doc) :
  req_body req !! "updateDate" = None →
  machineRouter.patch_id w st req = (res_json (Document d), st') →
  ∃ d0, d0 ∈ machines st ∧ _id d0 = _id d
        ∧ fields d !! "updateDate" = fields d0 !! "updateDate".
Proof.
  intros Hnone. unfold machineRouter.patch_id, Model_findByIdAndUpdate.
  destruct (ObjectId_fromString (req_param req "id")) as [o|]; [|done].
  destruct (castUpdate Machine w (req_body req)) as [sets|] eqn:Hsets; [|done].
  destruct (updateId (req_body req) o) as [|newId]; [done|].
  destruct (connected w); [|done]. simpl.
  destruct (lookupId o (machines st)) as [d0|] eqn:Hfind; [|done].
  case_bool_decide; [|done]. intros [= <- <-].
  apply lookupId_elem in Hfind as [Hin _].
  exists d0. split; [done|]. split; [done|]. simpl.
  apply foldl_applySet_other. intros x Hx.
  apply (castUpdate_keys _ _ _ _ _ _ Hsets) in Hx as [? Hx]. congruence.
Qed.

(** C1, at three requests.  The machine [lathe] was created at time 100.
    A [PATCH] at time 200 and a second one at time 300 both answer 200 and
    leave [updateDate] at 100; a [PATCH] whose payload carries an
    [updateDate] of 5 answers 200 and stores 5, which is older than the
    [createDate] of 100. *)
Theorem Machine_update_does_not_refresh_updateDate :
  machineRouter.patch_id (world 200 idX) plant rename_lathe
  = (res_json (Document lathe_renamed), set_machines [lathe_renamed] plant)
  ∧ machineRouter.patch_id (world 300 idX) (set_machines [lathe_renamed] plant)
      describe_lathe
    = (res_json (Document lathe_described), set_machines [lathe_described] plant)
  ∧ fields lathe !! "updateDate" = Some (VDate 100)
  ∧ fields lathe_renamed !! "updateDate" = Some (VDate 100)
  ∧ fields lathe_described !! "updateDate" = Some (VDate 100)
  ∧ machineRouter.patch_id (world 200 idX) plant backdate_lathe
    = (res_json (Document lathe_backdated), set_machines [lathe_backdated] plant)
  ∧ fields lathe_backdated !! "updateDate" = Some (VDate 5)
  ∧ fields lathe_backdated !! "createDate" = Some (VDate 100).
Proof. by vm_compute. Qed.

(** The hook does run on [save]: a machine created at time 100 carries an
    [updateDate] of 100 even when the payload names another one. *)
Lemma Machine_create_sets_updateDate :
  machineRouter.post (world 100 idM) emptyStore
    (request [] [ ("name", JStr "Lathe-1"); ("description", JStr "CNC lathe");
                  ("companyName", JStr "Acme"); ("updateDate", JNum 5) ])
  = (res_status_json 201 (Document lathe), workshop).
Proof. by vm_compute. Qed.

(** No update route ever answers with an errors array: the handlers do not
    read the result of their validation chains. *)
Lemma Update_never_reports_field_errors (w : World) (st : Store) (req : Request)
    (errors : list FieldError) :
  json (machineRouter.patch_id w st req).1 ≠ Errors errors
  ∧ json (sensorRouter.patch_id w st req).1 ≠ Errors errors
  ∧ json (sensorDataRouter.patch_id w st req).1 ≠ Errors errors.
Proof.
  unfold machineRouter.patch_id, sensorRouter.patch_id, sensorDataRouter.patch_id.
  repeat split;
    by destruct (Model_findByIdAndUpdate _ _ _ _ _) as [[[?|] ?]|?].
Qed.


(** * The routers as a whole *)

(** ** The common shape of the handlers *)

Lemma Create_shape r w st req :
  Create r w st req
  = match validationResult (Create_chains r) req with
    | [] =>
        match save (model_of r) w (collection r st)
                (Model_new (model_of r) w (req_body req)) with
        | Resolved (d, c) => (res_status_json 201 (Document d), set_collection r c st)
        | Rejected e => (res_status_json 400 (JustMessage (error_message e)), st)
        end
    | e :: errors => (res_status_json 400 (Errors (e :: errors)), st)
    end.
Proof.
  destruct r; unfold Create, Create_chains, machineRouter.post, sensorRouter.post,
    sensorDataRouter.post, sensorDataRouter_sensorId.post;
    by destruct (validationResult _ req).
Qed.

Lemma List_shape r w st req :
  List_ r w st req
  = match Model_find w (collection r st) with
    | Resolved l => (res_status_json (listStatus r) (Documents l), st)
    | Rejected e => (res_status_json 500 (JustMessage (error_message e)), st)
    end.
Proof. by destruct r. Qed.

Lemma GetById_shape r w st req :
  GetById r w st req
  = match Model_findById w (collection r st) (req_param req "id") with
    | Resolved None => (res_status_json 404 (JustMessage (Text (notFoundText r))), st)
    | Resolved (Some d) => (res_status_json 200 (Document d), st)
    | Rejected e => (res_status_json 500 (JustMessage (error_message e)), st)
    end.
Proof. by destruct r. Qed.

Lemma UpdateById_shape r w st req :
  UpdateById r w st req
  = match Model_findByIdAndUpdate (model_of r) w (collection r st)
            (req_param req "id") (req_body req) with
    | Resolved (None, _) =>
        (res_status_json 404 (JustMessage (Text (notFoundText r))), st)
    | Resolved (Some d, c) => (res_status_json 200 (Document d), set_collection r c st)
    | Rejected e => (res_status_json 400 (JustMessage (error_message e)), st)
    end.
Proof. by destruct r. Qed.

Lemma DeleteById_shape r w st req :
  DeleteById r w st req
  = match Model_findByIdAndDelete w (collection r st) (req_param req "id") with
    | Resolved (None, _) =>
        (res_status_json 404 (JustMessage (Text (notFoundText r))), st)
    | Resolved (Some _, c) =>
        (res_status_json 200 (JustMessage (Text (deletedText r))), set_collection r c st)
    | Rejected e => (res_status_json 500 (JustMessage (error_message e)), st)
    end.
Proof. by destruct r. Qed.

Lemma collection_set_collection r c st : collection r (set_collection r c st) = c.
Proof. by destruct r. Qed.


(** ** What each operation can answer *)


(** X2. The store changes only under a success: whenever a handler leaves a
    store other than the one it found, the operation was a create answered
    201, or an update or a delete answered 200.  Lists and reads never change
    the store, and no answer of 400, 404 or 500 comes with a change. *)
Theorem Store_changes_only_on_success (r : Resource) (op : Operation) (w : World)
    (st : Store) (req : Request) :
  (handler r op w st req).2 ≠ st →
  (op = OpCreate ∧ status (handler r op w st req).1 = 201)
  ∨ ((op = OpUpdateById ∨ op = OpDeleteById) ∧ status (handler r op w st req).1 = 200).
Proof.
  destruct op; simpl;
    rewrite ?Create_shape, ?List_shape, ?GetById_shape, ?UpdateById_shape,
      ?DeleteById_shape.
  - destruct (validationResult _ req); [|done].
    destruct (save _ _ _ _) as [[? ?]|?]; [by left|done].
  - by destruct (Model_find _ _).
  - by destruct (Model_findById _ _ _) as [[?|]|?].
  - destruct (Model_findByIdAndUpdate _ _ _ _ _) as [[[?|] ?]|?]; [|done..].
    right. by split; [left|].
  - destruct (Model_findByIdAndDelete _ _ _) as [[[?|] ?]|?]; [|done..].
    right. by split; [right|].
Qed.

Lemma Store_changes_only_on_success_witness :
  (handler machine OpDeleteById (world 300 idX) plant (request [("id", idM)] [])).2
  ≠ plant
  ∧ status (handler machine OpDeleteById (world 300 idX) plant
              (request [("id", idM)] [])).1 = 200.
Proof.
  assert ((handler machine OpDeleteById (world 300 idX) plant
             (request [("id", idM)] [])).2 ≠ plant) as H.
  { by vm_compute. }
  split; [exact H|].
  destruct (Store_changes_only_on_success machine OpDeleteById (world 300 idX) plant
              (request [("id", idM)] []) H) as [[? _]|[_ ?]]; done.
Defined.




(** ** Identifiers in a collection *)


Lemma hasId_false i c : hasId i c = false ↔ i ∉ map _id c.
Proof.
  unfold hasId. induction c as [|x c IH]; simpl.
  { split; [by intros _ ?%elem_of_nil|done]. }
  rewrite not_elem_of_cons, orb_false_iff, IH, bool_decide_eq_false.
  split; intros [? ?]; split; congruence.
Qed.

Lemma lookupId_app_new c d :
  _id d ∉ map _id c → lookupId (_id d) (c ++ [d])%list = Some d.
Proof.
  unfold lookupId. induction c as [|x c IH]; simpl.
  { intros _. by rewrite bool_decide_eq_true_2. }
  intros [Hx Hc]%not_elem_of_cons.
  rewrite bool_decide_eq_false_2 by congruence. by apply IH.
Qed.

Lemma replaceDoc_split o c d d' :
  lookupId o c = Some d → _id d' = o →
  ∃ l1 l2, c = (l1 ++ d :: l2)%list ∧ (∀ x, x ∈ l1 → _id x ≠ o)
           ∧ replaceDoc d' c = (l1 ++ d' :: l2)%list.
Proof.
  intros Hfind <-. unfold lookupId in Hfind.
  induction c as [|x c IH]; [done|]. simpl in *.
  case_bool_decide as Hx.
  - injection Hfind as ->. exists [], c.
    split; [done|]. split; [|done]. by intros ? ?%elem_of_nil.
  - destruct (IH Hfind) as (l1 & l2 & -> & Hl1 & Hrep).
    exists (x :: l1), l2. rewrite Hrep.
    split; [done|]. split; [|done].
    intros y [->|Hy]%elem_of_cons; [done|by apply Hl1].
Qed.

Lemma lookupId_middle o l1 d l2 :
  (∀ x, x ∈ l1 → _id x ≠ o) → _id d = o →
  lookupId o (l1 ++ d :: l2)%list = Some d.
Proof.
  intros Hl1 Hd. unfold lookupId. induction l1 as [|x l1 IH]; simpl.
  { by rewrite bool_decide_eq_true_2. }
  rewrite bool_decide_eq_false_2 by (apply Hl1, list_elem_of_here).
  apply IH. intros y Hy. by apply Hl1, list_elem_of_further.
Qed.

Lemma uniqueIds_remove l1 d l2 :
  uniqueIds (l1 ++ d :: l2)%list →
  uniqueIds (l1 ++ l2)%list ∧ _id d ∉ map _id (l1 ++ l2)%list.
Proof.
  unfold uniqueIds. rewrite !map_app. simpl.
  intros H%NoDup_ListNoDup. apply NoDup_remove in H as [H1 H2].
  split; [by apply NoDup_ListNoDup|]. by rewrite list_elem_of_In.
Qed.

(** ** Not found *)



(** ** What a create persists *)

Lemma schema_NoDup r : NoDup (pathNames (schema (model_of r))).
Proof. destruct r; by apply (bool_decide_unpack _). Qed.

Lemma constructPath_other w payload fs errs p k :
  p.1 ≠ k → (constructPath w payload (fs, errs) p).1 !! k = fs !! k.
Proof.
  intros Hne. unfold constructPath.
  destruct (payload !! p.1) as [v|].
  - destruct (cast w (type p.2) v) as [|[x|]]; simpl; [done| |done].
    by apply lookup_insert_ne.
  - destruct (default_Date_now p.2); simpl; [|done]. by apply lookup_insert_ne.
Qed.

Lemma constructPath_fold_other w payload sch acc k :
  k ∉ pathNames sch →
  (foldl (constructPath w payload) acc sch).1 !! k = acc.1 !! k.
Proof.
  revert acc. induction sch as [|p sch IH]; intros acc Hk; [done|].
  apply not_elem_of_cons in Hk as [Hp Hk]. simpl.
  rewrite IH by done. destruct acc as [fs errs]. by apply constructPath_other.
Qed.

Lemma constructPath_fold_lookup w payload sch acc k o :
  NoDup (pathNames sch) → (k, o) ∈ sch →
  (foldl (constructPath w payload) acc sch).1 !! k
  = match payload !! k with
    | None => if default_Date_now o then Some (VDate (Date_now w)) else acc.1 !! k
    | Some v => match cast w (type o) v with
                | Casted (Some x) => Some x
                | _ => acc.1 !! k
                end
    end.
Proof.
  revert acc. induction sch as [|p sch IH]; intros acc Hnd Hin.
  { by apply elem_of_nil in Hin. }
  apply NoDup_cons in Hnd as [Hp Hnd]. simpl.
  apply elem_of_cons in Hin as [<-|Hin].
  - rewrite constructPath_fold_other by done.
    destruct acc as [fs errs]. unfold constructPath. simpl.
    destruct (payload !! k) as [v|].
    + destruct (cast w (type o) v) as [|[x|]]; simpl; [done| |done].
      by apply lookup_insert_eq.
    + destruct (default_Date_now o); simpl; [|done]. by apply lookup_insert_eq.
  - rewrite IH by done.
    assert (p.1 ≠ k) as Hne.
    { intros <-. apply Hp. by apply (list_elem_of_fmap_2 fst) in Hin. }
    destruct acc as [fs errs].
    by rewrite (constructPath_other _ _ _ _ _ _ Hne).
Qed.

Lemma Model_new_fields M w payload :
  draft_fields (Model_new M w payload)
  = (foldl (constructPath w payload) (∅, []) (schema M)).1.
Proof.
  unfold Model_new. destruct (foldl _ _ _) as [fs errs].
  destruct (payload !! "_id") as [v|]; [|done]. by destruct (castObjectId v).
Qed.

Lemma Model_new_id M w payload :
  payload !! "_id" = None →
  draft_id (Model_new M w payload) = Some (ObjectId_generate w).
Proof.
  intros Hid. unfold Model_new. destruct (foldl _ _ _) as [fs errs].
  by rewrite Hid.
Qed.

Lemma save_Resolved M w c dr doc c' :
  save M w c dr = Resolved (doc, c') →
  connected w = true
  ∧ draft_errors dr = []
  ∧ ∃ i, draft_id dr = Some i
         ∧ (i ∉ map _id c)
         ∧ doc = foldl (λ x hook, hook w x)
                       {| _id := i; fields := draft_fields dr |} (pre_save M)
         ∧ c' = (c ++ [doc])%list.
Proof.
  unfold save.
  destruct (draft_errors dr ++ missingRequired _ _)%list eqn:Herr; [|done].
  apply app_eq_nil in Herr as [Herr _].
  destruct (draft_id dr) as [i|]; [|done].
  destruct (connected w); [|done]. simpl.
  destruct (hasId i c) eqn:Hhas; [done|]. intros [= <- <-].
  apply hasId_false in Hhas. split; [done|]. split; [done|]. by exists i.
Qed.

Lemma pre_save_model_of r w i fs :
  foldl (λ x hook, hook w x) {| _id := i; fields := fs |} (pre_save (model_of r))
  = {| _id := i;
       fields := match r with
                 | machine => <["updateDate" := VDate (Date_now w)]> fs
                 | _ => fs
                 end |}.
Proof. by destruct r. Qed.

Lemma Create_201 r w st req res st' :
  Create r w st req = (res, st') → status res = 201 →
  validationResult (Create_chains r) req = []
  ∧ ∃ d c, res = res_status_json 201 (Document d)
           ∧ st' = set_collection r c st
           ∧ save (model_of r) w (collection r st)
                  (Model_new (model_of r) w (req_body req)) = Resolved (d, c).
Proof.
  rewrite Create_shape.
  destruct (validationResult _ req); [|by intros [= <- <-]].
  destruct (save _ _ _ _) as [[d c]|e]; [|by intros [= <- <-]].
  intros [= <- <-] _. split; [done|]. by exists d, c.
Qed.

Lemma Create_201_store (r : Resource) (w : World) (st st' : Store) (req : Request)
    (res : Response) :
  Create r w st req = (res, st') →
  status res = 201 →
  ∃ d, res = res_status_json 201 (Document d)
       ∧ st' = set_collection r (collection r st ++ [d])%list st
       ∧ (_id d ∉ map _id (collection r st))
       ∧ (req_body req !! "_id" = None → _id d = ObjectId_generate w).
Proof.
  intros Hres Hcode.
  destruct (Create_201 _ _ _ _ _ _ Hres Hcode) as (_ & d & c & -> & -> & Hsave).
  apply save_Resolved in Hsave as (_ & _ & i & Hid & Hnew & -> & ->).
  rewrite pre_save_model_of.
  eexists. split; [done|]. split; [done|]. split; [done|].
  intros Hnone. rewrite Model_new_id in Hid by done. by injection Hid as <-.
Qed.

(** X6. A create answered 201 has appended exactly one document to the
    collection of its resource and touched nothing else; the identifier of
    the document was not in the collection, and it is the generated one
    unless the payload names an [_id].  A list asked of the reachable store
    afterwards answers the former documents followed by the new one. *)
Theorem Create_appends (r : Resource) (w : World) (st st' : Store) (req : Request)
    (res : Response) :
  Create r w st req = (res, st') →
  status res = 201 →
  ∃ d, res = res_status_json 201 (Document d)
       ∧ st' = set_collection r (collection r st ++ [d])%list st
       ∧ (_id d ∉ map _id (collection r st))
       ∧ (req_body req !! "_id" = None → _id d = ObjectId_generate w)
       ∧ ∀ w' req', connected w' = true →
           List_ r w' st' req'
           = (res_status_json (listStatus r)
                (Documents (collection r st ++ [d])%list), st').
Proof.
  intros Hres Hcode.
  destruct (Create_201_store _ _ _ _ _ _ Hres Hcode) as (d & -> & -> & Hnew & Hid).
  exists d. split; [done|]. split; [done|]. split; [done|]. split; [done|].
  intros w' req' Hup. rewrite List_shape, collection_set_collection.
  unfold Model_find. by rewrite Hup.
Qed.

Lemma Create_appends_witness :
  ∃ d, Create sensor_data (world 130 idX) plant reading_by_sensor
       = (res_status_json 201 (Document d), set_sensordatas [reading; d] plant)
       ∧ _id d = oid idX
       ∧ List_ sensor_data (world 131 idX) (set_sensordatas [reading; d] plant)
           (request [] [])
         = (res_status_json 200 (Documents [reading; d]),
            set_sensordatas [reading; d] plant).
Proof.
  destruct (Create sensor_data (world 130 idX) plant reading_by_sensor)
    as [res st'] eqn:Hres.
  assert (status res = 201) as Hcode.
  { by apply (f_equal (λ p, status p.1)) in Hres. }
  destruct (Create_appends _ _ _ _ _ _ Hres Hcode)
    as (d & -> & -> & _ & Hid & Hlist).
  exists d. split; [done|]. split; [by apply Hid|].
  by apply (Hlist (world 131 idX) (request [] [])).
Defined.

Lemma Create_201_path (r : Resource) (w : World) (st st' : Store) (req : Request)
    (d : Doc) (k : string) (o : SchemaTypeOptions) :
  Create r w st req = (res_status_json 201 (Document d), st') →
  (k, o) ∈ schema (model_of r) →
  (r = machine → k ≠ "updateDate") →
  fields d !! k
  = match req_body req !! k with
    | None => if default_Date_now o then Some (VDate (Date_now w)) else None
    | Some v => match cast w (type o) v with
                | Casted x => x
                | CastFailed => None
                end
    end.
Proof.
  intros Hres Hin Hupd.
  destruct (Create_201 _ _ _ _ _ _ Hres eq_refl) as (_ & d' & c & [= <-] & _ & Hsave).
  apply save_Resolved in Hsave as (_ & _ & i & _ & _ & -> & _).
  rewrite pre_save_model_of, Model_new_fields. simpl.
  assert ((foldl (constructPath w (req_body req)) (∅, []) (schema (model_of r))).1
          !! k
          = match req_body req !! k with
            | None => if default_Date_now o then Some (VDate (Date_now w)) else None
            | Some v => match cast w (type o) v with
                        | Casted x => x
                        | CastFailed => None
                        end
            end) as Hk.
  { rewrite (constructPath_fold_lookup _ _ _ _ k o (schema_NoDup r) Hin). simpl.
    destruct (req_body req !! k) as [v|]; [|by destruct (default_Date_now o)].
    by destruct (cast w (type o) v) as [|[x|]]. }
  destruct r; [|done..].
  rewrite lookup_insert_ne; [done|]. intros <-. by apply Hupd.
Qed.





(** ** Reading back *)

(** X9. Create, then read.  After a create answered 201 with a document
    whose identifier is canonical (its hexadecimal text reads back as
    itself), a read by that identifier, asked of the reachable store, answers
    200 with that very document and leaves the store alone. *)
Theorem Create_then_GetById (r : Resource) (w w' : World) (st st' : Store)
    (req : Request) (d : Doc) (b : list (string * JsValue)) :
  Create r w st req = (res_status_json 201 (Document d), st') →
  canonical (_id d) →
  connected w' = true →
  GetById r w' st' (request_id (_id d) b) = (res_status_json 200 (Document d), st').
Proof.
  intros Hres Hcanon Hup.
  destruct (Create_201_store _ _ _ _ _ _ Hres eq_refl) as (d' & [= <-] & -> & Hnew & _).
  rewrite GetById_shape, collection_set_collection. unfold Model_findById.
  assert (req_param (request_id (_id d) b) "id" = toHexString (_id d)) as ->.
  { unfold req_param, request_id, request. simpl. by rewrite lookup_insert_eq. }
  rewrite Hcanon, Hup. by rewrite lookupId_app_new.
Qed.

Lemma Create_then_GetById_witness :
  GetById machine (world 101 idX) workshop (request_id (oid idM) [])
  = (res_status_json 200 (Document lathe), workshop).
Proof.
  apply (Create_then_GetById machine (world 100 idM) (world 101 idX) emptyStore
           workshop machine_full lathe []).
  - by vm_compute.
  - by vm_compute.
  - reflexivity.
Defined.

(** ** Deleting *)

Lemma Delete_200 r w st req res st' :
  DeleteById r w st req = (res, st') → status res = 200 →
  connected w = true
  ∧ ∃ o d, ObjectId_fromString (req_param req "id") = Some o
           ∧ lookupId o (collection r st) = Some d
           ∧ res = res_status_json 200 (JustMessage (Text (deletedText r)))
           ∧ st' = set_collection r (removeDoc o (collection r st)) st.
Proof.
  rewrite DeleteById_shape. unfold Model_findByIdAndDelete.
  destruct (ObjectId_fromString (req_param req "id")) as [o|]; [|by intros [= <- <-]].
  destruct (connected w); simpl; [|by intros [= <- <-]].
  destruct (lookupId o (collection r st)) as [d|] eqn:Hfind; [|by intros [= <- <-]].
  intros [= <- <-] _. split; [done|]. by exists o, d.
Qed.

(** X10. A delete answered 200 has removed exactly one document, the first
    of its collection that has the identifier, and has touched no other
    collection: deleting a sensor leaves its machine and its readings in
    place, as deleting a machine leaves its sensors. *)
Theorem Delete_removes_one (r : Resource) (w : World) (st st' : Store) (req : Request)
    (res : Response) :
  DeleteById r w st req = (res, st') →
  status res = 200 →
  ∃ o l1 d l2,
    ObjectId_fromString (req_param req "id") = Some o
    ∧ collection r st = (l1 ++ d :: l2)%list
    ∧ _id d = o
    ∧ (∀ x, x ∈ l1 → _id x ≠ o)
    ∧ st' = set_collection r (l1 ++ l2)%list st.
Proof.
  intros Hres Hcode.
  destruct (Delete_200 _ _ _ _ _ _ Hres Hcode) as (_ & o & d & Hid & Hfind & _ & ->).
  destruct (removeDoc_split _ _ _ Hfind) as (l1 & l2 & Hc & Hd & Hl1 & ->).
  by exists o, l1, d, l2.
Qed.

Lemma Delete_removes_one_witness :
  DeleteById sensor (world 300 idX) plant (request [("id", idS)] [])
  = (res_status_json 200 (JustMessage (Text "Sensor entry deleted successfully")),
     set_sensors [] plant)
  ∧ sensordatas (set_sensors [] plant) = [reading]
  ∧ machines (set_sensors [] plant) = [lathe].
Proof.
  assert (DeleteById sensor (world 300 idX) plant (request [("id", idS)] [])
          = (res_status_json 200
               (JustMessage (Text "Sensor entry deleted successfully")),
             set_sensors [] plant)) as Hres.
  { by vm_compute. }
  destruct (Delete_removes_one _ _ _ _ _ _ Hres eq_refl)
    as (o & l1 & d & l2 & _ & _ & _ & _ & Hst).
  split; [exact Hres|]. by rewrite Hst.
Defined.



(** ** Updating, in general *)






Lemma Update_200 r w st req res st' :
  UpdateById r w st req = (res, st') → status res = 200 →
  connected w = true
  ∧ ∃ o d0 sets,
      ObjectId_fromString (req_param req "id") = Some o
      ∧ castUpdate (model_of r) w (req_body req) = Some sets
      ∧ updateId (req_body req) o = Casted (Some o)
      ∧ lookupId o (collection r st) = Some d0
      ∧ res = res_status_json 200
                (Document {| _id := _id d0;
                             fields := foldl applySet (fields d0) sets |})
      ∧ st' = set_collection r
                (replaceDoc {| _id := _id d0;
                               fields := foldl applySet (fields d0) sets |}
                   (collection r st)) st.
Proof.
  rewrite UpdateById_shape. unfold Model_findByIdAndUpdate.
  destruct (ObjectId_fromString (req_param req "id")) as [o|]; [|by intros [= <- <-]].
  destruct (castUpdate _ _ _) as [sets|]; [|by intros [= <- <-]].
  destruct (updateId _ _) as [|newId] eqn:Hnew; [by intros [= <- <-]|].
  destruct (connected w); simpl; [|by intros [= <- <-]].
  destruct (lookupId o (collection r st)) as [d0|] eqn:Hfind; [|by intros [= <- <-]].
  case_bool_decide as Hsame; [|by intros [= <- <-]].
  intros [= <- <-] _. split; [done|]. exists o, d0, sets. by subst.
Qed.




(** X13. An update answered 200 replaces one document in place: the
    collection keeps its length, its order and its identifiers, the documents
    before and after the updated one are untouched, and so are the other
    collections. *)
Theorem Update_in_place (r : Resource) (w : World) (st st' : Store) (req : Request)
    (res : Response) :
  UpdateById r w st req = (res, st') →
  status res = 200 →
  ∃ l1 d0 d l2,
    res = res_status_json 200 (Document d)
    ∧ collection r st = (l1 ++ d0 :: l2)%list
    ∧ (∀ x, x ∈ l1 → _id x ≠ _id d0)
    ∧ _id d = _id d0
    ∧ st' = set_collection r (l1 ++ d :: l2)%list st
    ∧ map _id (collection r st') = map _id (collection r st).
Proof.
  intros Hres Hcode.
  destruct (Update_200 _ _ _ _ _ _ Hres Hcode)
    as (_ & o & d0 & sets & _ & _ & _ & Hfind & -> & ->).
  destruct (lookupId_elem _ _ _ Hfind) as [_ Hd0].
  destruct (replaceDoc_split o _ d0
              {| _id := _id d0; fields := foldl applySet (fields d0) sets |}
              Hfind Hd0) as (l1 & l2 & Hc & Hl1 & Hrep).
  exists l1, d0, {| _id := _id d0; fields := foldl applySet (fields d0) sets |}, l2.
  rewrite Hrep, collection_set_collection, Hc.
  split; [done|]. split; [done|]. split; [by rewrite Hd0|]. split; [done|].
  split; [done|]. by rewrite !map_app.
Qed.

Lemma Update_in_place_witness :
  UpdateById machine (world 200 idX) plant rename_lathe
  = (res_status_json 200 (Document lathe_renamed), set_machines [lathe_renamed] plant)
  ∧ map _id (machines (set_machines [lathe_renamed] plant)) = map _id (machines plant).
Proof.
  assert (UpdateById machine (world 200 idX) plant rename_lathe
          = (res_status_json 200 (Document lathe_renamed),
             set_machines [lathe_renamed] plant)) as Hres.
  { by vm_compute. }
  split; [exact Hres|].
  destruct (Update_in_place _ _ _ _ _ _ Hres eq_refl)
    as (l1 & d0 & d & l2 & _ & _ & _ & _ & _ & Hids).
  exact Hids.
Defined.

(** X14. Update, then read.  After an update answered 200, a read by the
    same path parameter, asked of the reachable store, answers 200 with the
    document the update returned. *)
Theorem Update_then_GetById (r : Resource) (w w' : World) (st st' : Store)
    (req req' : Request) (d : Doc) :
  UpdateById r w st req = (res_status_json 200 (Document d), st') →
  connected w' = true →
  req_param req' "id" = req_param req "id" →
  GetById r w' st' req' = (res_status_json 200 (Document d), st').
Proof.
  intros Hres Hup Hsame.
  destruct (Update_200 _ _ _ _ _ _ Hres eq_refl)
    as (_ & o & d0 & sets & Hid & _ & _ & Hfind & [= ->] & ->).
  destruct (lookupId_elem _ _ _ Hfind) as [_ Hd0].
  destruct (replaceDoc_split o _ d0
              {| _id := _id d0; fields := foldl applySet (fields d0) sets |}
              Hfind Hd0) as (l1 & l2 & _ & Hl1 & Hrep).
  rewrite GetById_shape, collection_set_collection, Hrep. unfold Model_findById.
  by rewrite Hsame, Hid, Hup, (lookupId_middle o l1 _ l2).
Qed.

Lemma Update_then_GetById_witness :
  GetById machine (world 201 idX) (set_machines [lathe_renamed] plant)
    (request [("id", idM)] [])
  = (res_status_json 200 (Document lathe_renamed), set_machines [lathe_renamed] plant).
Proof.
  apply (Update_then_GetById machine (world 200 idX) (world 201 idX) plant
           (set_machines [lathe_renamed] plant) rename_lathe
           (request [("id", idM)] []) lathe_renamed).
  - by vm_compute.
  - reflexivity.
  - reflexivity.
Defined.









(** ** The identifiers stay unique *)

Lemma storeUniqueIds_collection r st : storeUniqueIds st → uniqueIds (collection r st).
Proof. intros (? & ? & ?). by destruct r. Qed.

Lemma storeUniqueIds_set r c st :
  storeUniqueIds st → uniqueIds c → storeUniqueIds (set_collection r c st).
Proof. intros (? & ? & ?) ?. by destruct r. Qed.

Lemma Unsuccessful_frame r op w st req :
  (op = OpList ∨ op = OpGetById → (handler r op w st req).2 = st)
  ∧ (op = OpCreate → status (handler r op w st req).1 ≠ 201 →
     (handler r op w st req).2 = st)
  ∧ (op = OpUpdateById ∨ op = OpDeleteById →
     status (handler r op w st req).1 ≠ 200 → (handler r op w st req).2 = st).
Proof.
  destruct op; simpl;
    rewrite ?Create_shape, ?List_shape, ?GetById_shape, ?UpdateById_shape,
      ?DeleteById_shape;
    (split_and!; [intros [?|?]|intros ?|intros [?|?]]); try done;
    repeat case_match; done.
Qed.

(** X17. Every handler keeps the identifiers of each collection unique: if
    no two documents of a collection share an [_id] before a request, none
    do after it, whichever of the five operations of whichever resource
    handled it. *)
Theorem UniqueIds_preserved (r : Resource) (op : Operation) (w : World) (st : Store)
    (req : Request) :
  storeUniqueIds st → storeUniqueIds (handler r op w st req).2.
Proof.
  intros Huniq. pose proof (storeUniqueIds_collection r st Huniq) as Hc.
  destruct (handler r op w st req) as [res st'] eqn:Hres. simpl.
  destruct (Unsuccessful_frame r op w st req) as (Hlist & Hcreate & Hother).
  rewrite Hres in Hlist, Hcreate, Hother. simpl in Hlist, Hcreate, Hother.
  destruct op; simpl in Hres; try (by rewrite Hlist; auto).
  - destruct (decide (status res = 201)) as [Hcode|Hcode];
      [|by rewrite Hcreate].
    destruct (Create_201_store _ _ _ _ _ _ Hres Hcode) as (d & _ & -> & Hnew & _).
    apply storeUniqueIds_set; [done|]. unfold uniqueIds in *.
    rewrite map_app. simpl. apply NoDup_app. split; [done|].
    split; [|apply NoDup_singleton].
    intros i Hi ->%list_elem_of_singleton. done.
  - destruct (decide (status res = 200)) as [Hcode|Hcode];
      [|by rewrite Hother; auto].
    destruct (Update_200 _ _ _ _ _ _ Hres Hcode)
      as (_ & o & d0 & sets & _ & _ & _ & Hfind & _ & ->).
    destruct (lookupId_elem _ _ _ Hfind) as [_ Hd0].
    destruct (replaceDoc_split o _ d0
                {| _id := _id d0; fields := foldl applySet (fields d0) sets |}
                Hfind Hd0) as (l1 & l2 & Hl & _ & ->).
    apply storeUniqueIds_set; [done|]. unfold uniqueIds in *.
    rewrite Hl in Hc. by rewrite map_app in Hc |- *.
  - destruct (decide (status res = 200)) as [Hcode|Hcode];
      [|by rewrite Hother; auto].
    destruct (Delete_200 _ _ _ _ _ _ Hres Hcode) as (_ & o & d & _ & Hfind & _ & ->).
    destruct (removeDoc_split _ _ _ Hfind) as (l1 & l2 & Hl & _ & _ & ->).
    apply storeUniqueIds_set; [done|]. rewrite Hl in Hc.
    by apply uniqueIds_remove in Hc as [? _].
Qed.

Lemma UniqueIds_preserved_witness :
  storeUniqueIds plant
  ∧ storeUniqueIds (handler sensor_data OpCreate (world 130 idX) plant
                      reading_by_sensor).2.
Proof.
  assert (storeUniqueIds plant) as H.
  { repeat split; apply (bool_decide_unpack _); by vm_compute. }
  split; [exact H|].
  by apply (UniqueIds_preserved sensor_data OpCreate (world 130 idX) plant
              reading_by_sensor).
Defined.

(** ** Creating, continued *)

(** X18. A created sensor is listed under its machine.  After
    [POST /sensor] answered 201 with a document, the sensors route of any
    machine identifier, asked of the reachable store, answers the sensors it
    answered before, followed by the new one if it refers to that machine;
    and the new sensor does refer to the machine its payload named. *)
Theorem Sensor_created_is_listed (w w' : World) (st st' : Store) (req req' : Request)
    (d : Doc) (m : ObjectId) :
  sensorRouter.post w st req = (res_status_json 201 (Document d), st') →
  connected w' = true →
  ObjectId_fromString (req_param req' "machineId") = Some m →
  sensorRouter.get_machineId_sensor w' st' req'
  = (res_status_json 200
       (Documents (List.filter (refersTo "machine" m) (sensors st)
                   ++ (if refersTo "machine" m d then [d] else []))%list), st')
  ∧ (toString (req_body req !! "machine") = req_param req' "machineId" →
     refersTo "machine" m d = true).
Proof.
  intros Hres Hup Hm.
  destruct (Create_201_store sensor _ _ _ _ _ Hres eq_refl) as (d' & [= <-] & -> & _).
  split.
  - rewrite (get_machineId_sensor_valid _ _ _ m) by done. simpl.
    by rewrite List.filter_app.
  - intros Hsame. apply refersTo_true.
    rewrite (Create_201_path sensor _ _ _ _ _ "machine"
               (opts SchemaObjectId .> with_require true) Hres); [| |done].
    2:{ do 5 apply list_elem_of_further. apply list_elem_of_here. }
    rewrite <- Hsame in Hm.
    destruct (ObjectId_castObjectId _ (ex_intro _ m Hm)) as (v & o & Hv & Hcast).
    rewrite Hv in Hm |- *. simpl. rewrite Hcast. simpl.
    unfold castObjectId in Hcast. destruct v; [done|..];
      rewrite Hm in Hcast; by injection Hcast as <-.
Qed.

Lemma Sensor_created_is_listed_witness :
  ∃ d, sensorRouter.post (world 110 idS) workshop sensor_with_bounds
       = (res_status_json 201 (Document d), set_sensors [d] workshop)
       ∧ sensorRouter.get_machineId_sensor (world 111 idX) (set_sensors [d] workshop)
           (request [("machineId", idM)] [])
         = (res_status_json 200 (Documents [d]), set_sensors [d] workshop).
Proof.
  destruct (sensorRouter.post (world 110 idS) workshop sensor_with_bounds)
    as [res st'] eqn:Hres.
  assert (status res = 201) as Hcode.
  { by apply (f_equal (λ p, status p.1)) in Hres. }
  destruct (Create_201_store sensor _ _ _ _ _ Hres Hcode) as (d & -> & -> & _).
  exists d. split; [done|].
  destruct (Sensor_created_is_listed (world 110 idS) (world 111 idX) workshop
              (set_sensors [d] workshop) sensor_with_bounds
              (request [("machineId", idM)] []) d (oid idM) Hres eq_refl eq_refl)
    as [Hlist Hrefers].
  rewrite Hlist. by rewrite (Hrefers eq_refl).
Defined.

Lemma missingRequired_elem sch (fs : gmap string Value) k o :
  (k, o) ∈ sch → required o = true → fs !! k = None → k ∈ missingRequired sch fs.
Proof.
  intros Hin Hreq Hnone. unfold missingRequired.
  apply list_elem_of_In, in_flat_map. exists (k, o).
  split; [by apply list_elem_of_In|]. simpl. rewrite Hreq, Hnone. by left.
Qed.

(** X19. The schema that names the reference [sensorId] spells the option
    [required], and there it is enforced: a payload that lacks [value],
    [rawValue] or [sensorId] is refused by [save] with a validation error,
    whatever the collection and the world, and nothing is persisted. *)
Theorem sensorId_schema_requires_members (w : World) (c : Collection)
    (payload : gmap string JsValue) :
  payload !! "value" = None ∨ payload !! "rawValue" = None
  ∨ payload !! "sensorId" = None →
  save SensorData_sensorId w c (Model_new SensorData_sensorId w payload)
  = Rejected ValidationError.
Proof.
  intros Habsent.
  assert (∃ k o, (k, o) ∈ sensorDataSchema_sensorId ∧ required o = true
                 ∧ default_Date_now o = false ∧ payload !! k = None)
    as (k & o & Hin & Hreq & Hdef & Hnone).
  { destruct Habsent as [H|[H|H]].
    - exists "value", (opts SchemaNumber .> with_required true).
      split; [apply list_elem_of_here|done].
    - exists "rawValue", (opts SchemaNumber .> with_required true).
      split; [apply list_elem_of_further, list_elem_of_here|done].
    - exists "sensorId", (opts SchemaObjectId .> with_required true).
      split; [do 3 apply list_elem_of_further; apply list_elem_of_here|done]. }
  assert (draft_fields (Model_new SensorData_sensorId w payload) !! k = None) as Hk.
  { rewrite Model_new_fields.
    rewrite (constructPath_fold_lookup _ _ _ _ k o); [|by apply (bool_decide_unpack _)|done].
    by rewrite Hnone, Hdef. }
  pose proof (missingRequired_elem _ _ _ _ Hin Hreq Hk) as Hmiss.
  unfold save. simpl schema.
  destruct (_ ++ missingRequired _ _)%list eqn:Herr; [|done].
  apply app_eq_nil in Herr as [_ Herr]. rewrite Herr in Hmiss.
  by apply elem_of_nil in Hmiss.
Qed.

Lemma sensorId_schema_requires_members_witness :
  save SensorData_sensorId (world 130 idX) [reading]
       (Model_new SensorData_sensorId (world 130 idX) (req_body reading_by_sensor))
  = Rejected ValidationError.
Proof.
  apply sensorId_schema_requires_members. right. right. reflexivity.
Defined.

(** X20. [POST /machine] accepts a payload of three strings.  With [name],
    [description] and [companyName] strings, no [createDate], [updateDate]
    or [_id] in the payload, a reachable store and a new generated
    identifier, the answer is 201 with the document that was appended: the
    three strings, and both dates at the time of the request. *)
Theorem Machine_create_accepts (w : World) (st : Store) (req : Request)
    (n ds cn : string) :
  connected w = true →
  req_body req !! "name" = Some (JStr n) →
  req_body req !! "description" = Some (JStr ds) →
  req_body req !! "companyName" = Some (JStr cn) →
  req_body req !! "createDate" = None →
  req_body req !! "updateDate" = None →
  req_body req !! "_id" = None →
  hasId (ObjectId_generate w) (machines st) = false →
  machineRouter.post w st req
  = (res_status_json 201
       (Document {| _id := ObjectId_generate w;
                    fields := {[ "name" := VString n;
                                 "description" := VString ds;
                                 "companyName" := VString cn;
                                 "createDate" := VDate (Date_now w);
                                 "updateDate" := VDate (Date_now w) ]} |}),
     set_machines
       (machines st ++ [ {| _id := ObjectId_generate w;
                            fields := {[ "name" := VString n;
                                         "description" := VString ds;
                                         "companyName" := VString cn;
                                         "createDate" := VDate (Date_now w);
                                         "updateDate" := VDate (Date_now w) ]} |} ])%list
       st).
Proof.
  intros Hup Hn Hd Hc Hcre Hupd Hid Hfresh.
  unfold machineRouter.post, validationResult, runChain, chainErrors, selectField.
  simpl. rewrite Hn, Hd, Hc. simpl.
  unfold Model_new, save, constructPath. simpl.
  rewrite Hn, Hd, Hc, Hcre, Hupd, Hid. simpl.
  by rewrite Hup, Hfresh.
Qed.

Lemma Machine_create_accepts_witness :
  machineRouter.post (world 100 idM) emptyStore machine_full
  = (res_status_json 201
       (Document {| _id := oid idM;
                    fields := {[ "name" := VString "Lathe-1";
                                 "description" := VString "CNC lathe";
                                 "companyName" := VString "Acme";
                                 "createDate" := VDate 100;
                                 "updateDate" := VDate 100 ]} |}),
     set_machines
       [ {| _id := oid idM;
            fields := {[ "name" := VString "Lathe-1";
                         "description" := VString "CNC lathe";
                         "companyName" := VString "Acme";
                         "createDate" := VDate 100;
                         "updateDate" := VDate 100 ]} |} ] emptyStore).
Proof.
  by apply (Machine_create_accepts (world 100 idM) emptyStore machine_full).
Defined.

(** X21. The current [POST /sensor-data] stores the reference.  With numeric
    [value] and [rawValue], a [sensor] of 24 hexadecimal characters, no
    [date] or [_id] in the payload, a reachable store and a new generated
    identifier, the answer is 201 with the document that was appended, and
    the document holds the identifier the payload named under [sensor]. *)
Theorem SensorData_create_accepts (w : World) (st : Store) (req : Request)
    (s : string) (m : ObjectId) :
  connected w = true →
  (∀ t, validator_isNumeric t = true → StringToNumber w t ≠ None) →
  runValidator IsNumeric (req_body req !! "value") = true →
  runValidator IsNumeric (req_body req !! "rawValue") = true →
  req_body req !! "sensor" = Some (JStr s) →
  ObjectId_fromString s = Some m →
  req_body req !! "date" = None →
  req_body req !! "_id" = None →
  hasId (ObjectId_generate w) (sensordatas st) = false →
  ∃ x y,
    sensorDataRouter.post w st req
    = (res_status_json 201
         (Document {| _id := ObjectId_generate w;
                      fields := {[ "value" := VNumber x; "rawValue" := VNumber y;
                                   "date" := VDate (Date_now w);
                                   "sensor" := VObjectId m ]} |}),
       set_sensordatas
         (sensordatas st ++ [ {| _id := ObjectId_generate w;
                                 fields := {[ "value" := VNumber x;
                                              "rawValue" := VNumber y;
                                              "date" := VDate (Date_now w);
                                              "sensor" := VObjectId m ]} |} ])%list
         st).
Proof.
  intros Hup Hnum Hv Hr Hs Hm Hdate Hid Hfresh.
  destruct (isNumeric_castNumber w Hnum _ Hv) as (v & x & Hlv & Hcv).
  destruct (isNumeric_castNumber w Hnum _ Hr) as (r & y & Hlr & Hcr).
  assert (validator_isMongoId s = true) as Hmongo.
  { unfold ObjectId_fromString in Hm. unfold validator_isMongoId, validator_isHexadecimal.
    destruct (_ =? _)%nat eqn:Hlen; [|done]. simpl in Hm.
    destruct (every is_hex s) eqn:Hhex; [|done].
    unfold hex1. rewrite Hhex. by destruct s. }
  exists x, y.
  unfold sensorDataRouter.post, validationResult, runChain, chainErrors, selectField.
  simpl. rewrite Hs. rewrite Hlv in Hv. rewrite Hlr in Hr. rewrite Hlv, Hlr.
  simpl in Hv, Hr |- *. rewrite Hv, Hr, Hmongo. simpl.
  unfold Model_new, save, constructPath. simpl.
  rewrite Hlv, Hlr, Hs, Hdate, Hid. simpl. rewrite Hcv, Hcr. simpl.
  rewrite Hm. simpl.
  by rewrite Hup, Hfresh.
Qed.

Lemma SensorData_create_accepts_witness :
  ∃ x y,
    sensorDataRouter.post (world 130 idX) plant reading_by_sensor
    = (res_status_json 201
         (Document {| _id := oid idX;
                      fields := {[ "value" := VNumber x; "rawValue" := VNumber y;
                                   "date" := VDate 130;
                                   "sensor" := VObjectId (oid idS) ]} |}),
       set_sensordatas
         [ reading;
           {| _id := oid idX;
              fields := {[ "value" := VNumber x; "rawValue" := VNumber y;
                           "date" := VDate 130;
                           "sensor" := VObjectId (oid idS) ]} |} ] plant).
Proof.
  apply (SensorData_create_accepts (world 130 idX) plant reading_by_sensor idS
           (oid idS)); try reflexivity.
  apply Number_decimal_of_numeric.
Defined.
